(** * Task2.py — clone a repository, stamp a manifest, archive a sub-directory

    A shallow embedding of [Task2.py] and of the parts of the Python
    standard library it calls ([pathlib], [shutil], [json], [datetime]),
    followed by the properties of the script.

    Conventions of the embedding.
    - A Python [str] is a [string]; non-ASCII text is held as its UTF-8 bytes.
    - The file system is a tree of regular files and directories reached from
      the root directory; there are no symbolic links and every operation is
      permitted.  A directory keeps its entries in listing order.
    - The library functions follow CPython 3.10 on POSIX.
    - The program runs in a small state-and-exception monad: the state is the
      file system, the lines written to standard output and the number of
      clock readings made so far. *)

From Stdlib Require Import List String Ascii Bool Arith Lia ZArith.
From Stdlib Require DecimalString.
Import ListNotations.
Local Open Scope string_scope.
Local Set Warnings "-register-all".

(** ** Python strings *)

Module PyStr.

(** [s.split(sep)] for a one-character separator. *)
Fixpoint split (sep : ascii) (s : string) : list string :=
  match s with
  | EmptyString => [""]
  | String c r =>
      if Ascii.eqb c sep then "" :: split sep r
      else match split sep r with
           | [] => [String c ""]
           | h :: t => String c h :: t
           end
  end.

(** [s.rfind(ch)]; [None] stands for [-1]. *)
Fixpoint rfind (ch : ascii) (s : string) : option nat :=
  match s with
  | EmptyString => None
  | String c r =>
      match rfind ch r with
      | Some i => Some (S i)
      | None => if Ascii.eqb c ch then Some 0 else None
      end
  end.

(** [s[i:]] *)
Fixpoint drop (i : nat) (s : string) : string :=
  match i, s with
  | 0, _ => s
  | S k, String _ r => drop k r
  | S _, EmptyString => ""
  end.

(** [str.isspace] on the ASCII range: TAB..CR, FS..US and the blank. *)
Definition isspace (c : ascii) : bool :=
  let n := nat_of_ascii c in
  (Nat.leb 9 n && Nat.leb n 13) || (Nat.leb 28 n && Nat.leb n 32).

Fixpoint lstrip (s : string) : string :=
  match s with
  | EmptyString => ""
  | String c r => if isspace c then lstrip r else s
  end.

Fixpoint rstrip (s : string) : string :=
  match s with
  | EmptyString => ""
  | String c r =>
      match rstrip r with
      | EmptyString => if isspace c then "" else String c ""
      | r' => String c r'
      end
  end.

(** [s.strip()] *)
Definition strip (s : string) : string := rstrip (lstrip s).

(** [str(n)] for a non-negative and for a signed integer. *)
Definition of_nat (n : nat) : string := DecimalString.NilEmpty.string_of_uint (Nat.to_uint n).
Definition of_Z (z : Z) : string := DecimalString.NilEmpty.string_of_int (Z.to_int z).

Fixpoint zeros (k : nat) : string :=
  match k with 0 => "" | S k' => String "0" (zeros k') end.

(** [s.zfill(w)] on a string of digits: the [%0wd] conversions. *)
Definition zfill (w : nat) (s : string) : string :=
  zeros (w - String.length s) ++ s.

(** [sep.join(l)] *)
Definition join (sep : string) (l : list string) : string := String.concat sep l.

(** [str(l)] for a list of strings whose [repr] needs no escape. *)
Definition repr_list (l : list string) : string :=
  "[" ++ join ", " (map (fun s => "'" ++ s ++ "'") l) ++ "]".

End PyStr.

(** ** [datetime]

    A year is written with four digits, a month, a day, an hour, a minute
    and a second with two. *)

Record datetime : Set := mkDatetime
  { year : nat; month : nat; day : nat;
    hour : nat; minute : nat; second : nat }.

Definition pad (w n : nat) : string := PyStr.zfill w (PyStr.of_nat n).

(** [strftime("%Y-%m-%d %H:%M:%S")] *)
Definition strftime_log (d : datetime) : string :=
  pad 4 (year d) ++ "-" ++ pad 2 (month d) ++ "-" ++ pad 2 (day d) ++ " " ++
  pad 2 (hour d) ++ ":" ++ pad 2 (minute d) ++ ":" ++ pad 2 (second d).

(** [strftime("%Y%m%d")] *)
Definition strftime_Ymd (d : datetime) : string :=
  pad 4 (year d) ++ pad 2 (month d) ++ pad 2 (day d).

(** ** [pathlib.PurePosixPath] *)

Module PurePath.

(** A parsed path: its root (empty, one slash or two slashes) and its
    components.  ["."] and empty components are dropped by the parser,
    [".."] is kept. *)
Record t : Set := mk { root : string; tail : list string }.

Definition splitroot (p : string) : string * string :=
  match p with
  | String "/" (String "/" (String "/" r)) => ("/", String "/" (String "/" r))
  | String "/" (String "/" r) => ("//", r)
  | String "/" r => ("/", r)
  | _ => ("", p)
  end.

Definition keep_component (x : string) : bool :=
  negb (x =? "") && negb (x =? ".").

(** [Path(s)] *)
Definition parse (s : string) : t :=
  let (rt, rel) := splitroot s in
  mk rt (filter keep_component (PyStr.split "/" rel)).

(** [p / q]: an absolute right operand replaces the left one. *)
Definition joinpath (p q : t) : t :=
  if root q =? "" then mk (root p) (tail p ++ tail q) else q.

(** The path of a directory entry, as [iterdir] builds it. *)
Definition child (p : t) (name : string) : t := mk (root p) (tail p ++ [name]).

(** [p.parts]: the root, when there is one, is the first part. *)
Definition parts (p : t) : list string :=
  if root p =? "" then tail p else root p :: tail p.

(** [p == q] compares the parts. *)
Definition eqb (p q : t) : bool :=
  if list_eq_dec string_dec (parts p) (parts q) then true else false.

(** [str(p)] *)
Definition to_string (p : t) : string :=
  match root p ++ PyStr.join "/" (tail p) with
  | EmptyString => "."
  | s => s
  end.

(** [p.name] *)
Definition name (p : t) : string := last (tail p) "".

(** The suffix of a file name: from its last dot, when that dot is neither
    the first nor the last character. *)
Definition suffix_of (nm : string) : string :=
  match PyStr.rfind "." nm with
  | Some i =>
      if Nat.ltb 0 i && Nat.ltb i (String.length nm - 1)
      then PyStr.drop i nm else ""
  | None => ""
  end.

(** [p.suffix] *)
Definition suffix (p : t) : string := suffix_of (name p).

(** [os.path.normpath] on the components: [".."] cancels the component
    before it; at the start it is kept in a relative path and dropped in an
    absolute one. *)
Fixpoint norm_rev (absolute : bool) (acc ps : list string) : list string :=
  match ps with
  | [] => acc
  | c :: r =>
      if c =? ".." then
        match acc with
        | [] => norm_rev absolute (if absolute then [] else [".."]) r
        | a :: acc' =>
            if a =? ".." then norm_rev absolute (c :: acc) r
            else norm_rev absolute acc' r
        end
      else norm_rev absolute (c :: acc) r
  end.

Definition normpath (p : t) : t :=
  mk (root p) (List.rev (norm_rev (negb (root p =? "")) [] (tail p))).

End PurePath.


(** ** [json.dumps(..., indent=4, ensure_ascii=False)] *)

Inductive json : Set :=
| JStr (s : string)
| JArr (items : list json)
| JObj (members : list (string * json)).

Module Json.

Definition hex_digit (n : nat) : ascii :=
  nth n (list_ascii_of_string "0123456789abcdef") "0"%char.

(** One character of a string literal: the quote, the backslash and the
    control characters are escaped, everything else is written as it is. *)
Definition escape_char (c : ascii) : string :=
  let n := nat_of_ascii c in
  if Nat.eqb n 34 then String "092" (String "034" EmptyString)
  else if Nat.eqb n 92 then "\\"
  else if Nat.eqb n 8 then "\b"
  else if Nat.eqb n 12 then "\f"
  else if Nat.eqb n 10 then "\n"
  else if Nat.eqb n 13 then "\r"
  else if Nat.eqb n 9 then "\t"
  else if Nat.ltb n 32 then
    "\u00" ++ String (hex_digit (n / 16)) (String (hex_digit (n mod 16)) "")
  else String c "".

Fixpoint escape (s : string) : string :=
  match s with
  | EmptyString => ""
  | String c r => escape_char c ++ escape r
  end.

Definition encode_string (s : string) : string :=
  String "034" (escape s ++ String "034" "").

Definition newline : string := String "010" "".

Fixpoint spaces (k : nat) : string :=
  match k with 0 => "" | S k' => String " " (spaces k') end.

(** A line break followed by the indentation of nesting depth [level]. *)
Definition newline_indent (level : nat) : string := newline ++ spaces (4 * level).

Fixpoint dumps_at (level : nat) (j : json) : string :=
  match j with
  | JStr s => encode_string s
  | JArr [] => "[]"
  | JArr items =>
      "[" ++ newline_indent (S level)
          ++ PyStr.join ("," ++ newline_indent (S level))
               (map (dumps_at (S level)) items)
          ++ newline_indent level ++ "]"
  | JObj [] => "{}"
  | JObj members =>
      "{" ++ newline_indent (S level)
          ++ PyStr.join ("," ++ newline_indent (S level))
               (map (fun kv => encode_string (fst kv) ++ ": " ++ dumps_at (S level) (snd kv))
                    members)
          ++ newline_indent level ++ "}"
  end.

Definition dumps (j : json) : string := dumps_at 0 j.

End Json.

(** ** The file system *)

(** What a regular file holds: text, or a zip archive described by its
    members in the order they were added.  A member is named by its archive
    name and is a directory entry ([None]) or a file with its content. *)
Inductive content : Set :=
| Text (s : string)
| Zip (members : list (string * option content)).

Inductive node : Set :=
| File (c : content)
| Dir (entries : list (string * node)).

Inductive errno : Set := ENOENT | ENOTDIR | EISDIR.

Module FS.

(** The first entry of a directory listing that bears a name. *)
Fixpoint assoc {A : Type} (x : string) (es : list (string * A)) : option A :=
  match es with
  | [] => None
  | (y, a) :: r => if y =? x then Some a else assoc x r
  end.

Fixpoint alter (x : string) (f : node -> node) (es : list (string * node))
  : list (string * node) :=
  match es with
  | [] => []
  | (y, a) :: r => if y =? x then (y, f a) :: r else (y, a) :: alter x f r
  end.

Definition del (x : string) (es : list (string * node)) : list (string * node) :=
  filter (fun e => negb (fst e =? x)) es.

(** A new entry goes to the end of the listing; an existing one is replaced
    in place. *)
Definition put (x : string) (n : node) (es : list (string * node))
  : list (string * node) :=
  match assoc x es with
  | Some _ => alter x (fun _ => n) es
  | None => es ++ [(x, n)]
  end.

Definition names (n : node) : list string :=
  match n with
  | Dir es => map fst es
  | File _ => []
  end.

(** The node at a location, a list of names read from the root. *)
Fixpoint lookup (loc : list string) (n : node) : option node :=
  match loc with
  | [] => Some n
  | x :: r =>
      match n with
      | Dir es =>
          match assoc x es with
          | Some c => lookup r c
          | None => None
          end
      | File _ => None
      end
  end.

(** Apply [f] to the node at a location. *)
Fixpoint modify (loc : list string) (f : node -> node) (n : node) : node :=
  match loc with
  | [] => f n
  | x :: r =>
      match n with
      | Dir es => Dir (alter x (modify r f) es)
      | File _ => n
      end
  end.

Definition del_entry (x : string) (n : node) : node :=
  match n with
  | Dir es => Dir (del x es)
  | File _ => n
  end.

Definition put_entry (x : string) (c : node) (n : node) : node :=
  match n with
  | Dir es => Dir (put x c es)
  | File _ => n
  end.

(** Remove the entry at a location from its parent directory. *)
Definition remove_at (loc : list string) (r : node) : node :=
  match loc with
  | [] => r
  | _ => modify (removelast loc) (del_entry (last loc "")) r
  end.

(** Path resolution: follow the components one at a time from the location
    [cur]; [".."] steps to the parent (the root is its own parent), and
    every component but the last must be passed through a directory. *)
Fixpoint walk (r : node) (cur : list string) (ps : list string)
  : errno + list string :=
  match lookup cur r with
  | None => inl ENOENT
  | Some n =>
      match ps with
      | [] => inr cur
      | c :: rest =>
          match n with
          | File _ => inl ENOTDIR
          | Dir _ => walk r (if c =? ".." then removelast cur else cur ++ [c]) rest
          end
      end
  end.

(** Where a path starts: the root for an absolute path, the working
    directory otherwise. *)
Definition start (cwd : list string) (p : PurePath.t) : list string :=
  if PurePath.root p =? "" then cwd else [].

Definition resolve (r : node) (cwd : list string) (p : PurePath.t)
  : errno + list string :=
  walk r (start cwd p) (PurePath.tail p).

(** [os.stat] *)
Definition stat (r : node) (cwd : list string) (p : PurePath.t) : errno + node :=
  match resolve r cwd p with
  | inl e => inl e
  | inr loc =>
      match lookup loc r with
      | Some n => inr n
      | None => inl ENOENT
      end
  end.

(** Names in byte order, as [sorted] orders them. *)
Fixpoint insert_sorted (x : string) (l : list string) : list string :=
  match l with
  | [] => [x]
  | y :: r => if String.leb x y then x :: l else y :: insert_sorted x r
  end.

Definition sorted (l : list string) : list string :=
  fold_right insert_sorted [] l.

Definition arcname (prefix : list string) : string := PyStr.join "/" prefix.

(** The member that stands for a directory: its name ends with a slash. *)
Definition dir_member (loc : list string) : string * option content :=
  (arcname loc ++ "/", None).

Definition file_member (loc : list string) (c : content) : string * option content :=
  (arcname loc, Some c).

(** The members [_make_zipfile] adds while [os.walk] goes down a directory
    tree: at each directory its sub-directories in sorted order, then its
    files in listing order, then the same for each sub-directory in listing
    order. *)
Fixpoint walk_members (prefix : list string) (n : node)
  : list (string * option content) :=
  match n with
  | File _ => []
  | Dir es =>
      let dirnames :=
        flat_map (fun e => match snd e with Dir _ => [fst e] | File _ => [] end) es in
      (map (fun d => dir_member (prefix ++ [d])) (sorted dirnames)
       ++ flat_map (fun e => match snd e with
                             | File c => [file_member (prefix ++ [fst e]) c]
                             | Dir _ => []
                             end) es
       ++ (fix descend (l : list (string * node)) : list (string * option content) :=
             match l with
             | [] => []
             | (x, c) :: r =>
                 (match c with
                  | Dir _ => walk_members (prefix ++ [x]) c
                  | File _ => []
                  end ++ descend r)%list
             end) es)%list
  end.

End FS.

(** ** Exceptions, state and the monad of the script *)

Inductive exn : Set :=
| BuildScriptError (message : string)
| FileNotFoundError
| NotADirectoryError
| IsADirectoryError
| IndexError.

Definition os_error (e : errno) : exn :=
  match e with
  | ENOENT => FileNotFoundError
  | ENOTDIR => NotADirectoryError
  | EISDIR => IsADirectoryError
  end.

(** The state a run works on. *)
Record world : Set := mkWorld
  { fs : node;                 (* the file system, from its root *)
    stdout : list string;      (* what each [print] wrote, oldest first *)
    clock_reads : nat }.       (* how many times the clock was read *)

(** What a run is given from outside. *)
Record env : Type := mkEnv
  { cwd : list string;         (* location of the current working directory *)
    now : nat -> datetime;     (* the n-th reading of the local clock *)
    (* [subprocess.run(cmd, shell=True, cwd=dir)]: exit status, captured
       standard output and error, and the file system it leaves *)
    shell : string -> option string -> node -> (Z * string * string) * node;
    str_strip : string -> string;            (* [str.strip] *)
    str_of_list : list string -> string }.   (* [str] of a list of [str] *)

Inductive outcome (A : Type) : Type :=
| Return (a : A)
| Raise (e : exn).
Arguments Return {A} a.
Arguments Raise {A} e.

Definition M (A : Type) : Type := world -> outcome A * world.

Definition ret {A : Type} (a : A) : M A := fun w => (Return a, w).

Definition raise {A : Type} (e : exn) : M A := fun w => (Raise e, w).

Definition bind {A B : Type} (m : M A) (k : A -> M B) : M B :=
  fun w =>
    match m w with
    | (Return a, w') => k a w'
    | (Raise e, w') => (Raise e, w')
    end.

Declare Scope monad_scope.
Delimit Scope monad_scope with monad.
Notation "x <- m ;; k" := (bind m (fun x => k))
  (at level 61, m at next level, right associativity) : monad_scope.
Notation "m ;; k" := (bind m (fun _ => k))
  (at level 61, right associativity) : monad_scope.
Local Open Scope monad_scope.

(** [for x in l: body(x)] *)
Fixpoint for_each {A : Type} (l : list A) (body : A -> M unit) : M unit :=
  match l with
  | [] => ret tt
  | x :: r => body x ;; for_each r body
  end.

Definition get_fs : M node := fun w => (Return (fs w), w).

Definition set_fs (r : node) : M unit :=
  fun w => (Return tt, mkWorld r (stdout w) (clock_reads w)).

(** [print(text)] *)
Definition print (text : string) : M unit :=
  fun w => (Return tt, mkWorld (fs w) (stdout w ++ [text]) (clock_reads w)).

Module FSOps.

(** The resolved location of a path together with the node found there. *)
Definition locate (r : node) (cwd : list string) (p : PurePath.t)
  : errno + (list string * node) :=
  match FS.resolve r cwd p with
  | inl e => inl e
  | inr loc =>
      match FS.lookup loc r with
      | Some n => inr (loc, n)
      | None => inl ENOENT
      end
  end.

Definition exists_ (r : node) (cwd : list string) (p : PurePath.t) : bool :=
  match locate r cwd p with
  | inr _ => true
  | inl _ => false
  end.

Definition is_dir (r : node) (cwd : list string) (p : PurePath.t) : bool :=
  match locate r cwd p with
  | inr (_, Dir _) => true
  | _ => false
  end.

Definition is_file (r : node) (cwd : list string) (p : PurePath.t) : bool :=
  match locate r cwd p with
  | inr (_, File _) => true
  | _ => false
  end.

Definition member_of (loc : list string) (n : node) : string * option content :=
  match n with
  | Dir _ => FS.dir_member loc
  | File c => FS.file_member loc c
  end.

End FSOps.

Section Program.

Variable E : env.

(** [datetime.now()] *)
Definition datetime_now : M datetime :=
  fun w => (Return (now E (clock_reads w)),
            mkWorld (fs w) (stdout w) (S (clock_reads w))).

(** [Path.exists], [Path.is_dir] *)
Definition path_exists (p : PurePath.t) : M bool :=
  r <- get_fs ;; ret (FSOps.exists_ r (cwd E) p).

Definition path_is_dir (p : PurePath.t) : M bool :=
  r <- get_fs ;; ret (FSOps.is_dir r (cwd E) p).

(** [Path.iterdir]: the directory is listed once, when the loop starts. *)
Definition iterdir (p : PurePath.t) : M (list PurePath.t) :=
  r <- get_fs ;;
  match FSOps.locate r (cwd E) p with
  | inl e => raise (os_error e)
  | inr (_, File _) => raise NotADirectoryError
  | inr (_, Dir es) => ret (map (PurePath.child p) (map fst es))
  end.

(** [shutil.rmtree], for a path that ends in a plain name. *)
Definition rmtree (p : PurePath.t) : M unit :=
  r <- get_fs ;;
  match FSOps.locate r (cwd E) p with
  | inl e => raise (os_error e)
  | inr (_, File _) => raise NotADirectoryError
  | inr (loc, Dir _) => set_fs (FS.remove_at loc r)
  end.

(** [Path.unlink], for a path that ends in a plain name. *)
Definition unlink (p : PurePath.t) : M unit :=
  r <- get_fs ;;
  match FSOps.locate r (cwd E) p with
  | inl e => raise (os_error e)
  | inr (_, Dir _) => raise IsADirectoryError
  | inr (loc, File _) => set_fs (FS.remove_at loc r)
  end.

(** [open(p, "w")], writing [c] and closing: the file is created in its
    directory or its content replaced. *)
Definition write_file (p : PurePath.t) (c : content) : M unit :=
  r <- get_fs ;;
  match PurePath.tail p with
  | [] => raise IsADirectoryError
  | ps =>
      let nm := last ps "" in
      if nm =? ".." then
        match FSOps.locate r (cwd E) p with
        | inl e => raise (os_error e)
        | inr _ => raise IsADirectoryError
        end
      else
        match FSOps.locate r (cwd E) (PurePath.mk (PurePath.root p) (removelast ps)) with
        | inl e => raise (os_error e)
        | inr (_, File _) => raise NotADirectoryError
        | inr (loc, Dir es) =>
            match FS.assoc nm es with
            | Some (Dir _) => raise IsADirectoryError
            | _ => set_fs (FS.modify loc (FS.put_entry nm (File c)) r)
            end
        end
  end.

(** [shutil.make_archive(base_name, "zip", root_dir, base_dir)] for a
    [base_name] of one component.  The archive is opened in the working
    directory, then filled from [root_dir]: first the entry of the normalised
    [base_dir] itself, unless that is the current directory (no part is
    left), then what [os.walk(base_dir)] meets.  A member loses the leading
    slashes of its name, and a name with nothing else is an [IndexError].
    An archive that lies inside the tree it archives appears there as an
    empty archive. *)
Definition make_archive (base_name : string) (root_dir : PurePath.t) (base_dir : string)
  : M unit :=
  r <- get_fs ;;
  match FSOps.locate r (cwd E) root_dir with
  | inl e => raise (os_error e)
  | inr (_, File _) => raise NotADirectoryError
  | inr (here, Dir _) =>
      let zip_path := PurePath.parse (base_name ++ ".zip") in
      let base := PurePath.parse base_dir in
      let top := PurePath.normpath base in
      write_file zip_path (Zip []) ;;
      r1 <- get_fs ;;
      first <- (match PurePath.parts top with
                | [] => ret []
                | _ =>
                    match FSOps.locate r1 here top with
                    | inl e => raise (os_error e)
                    | inr (_, n) =>
                        match PurePath.tail top with
                        | [] => raise IndexError
                        | ps => ret [FSOps.member_of ps n]
                        end
                    end
                end) ;;
      let rest := match FSOps.locate r1 here base with
                  | inr (_, n) => FS.walk_members (PurePath.tail top) n
                  | inl _ => []
                  end in
      write_file zip_path (Zip (first ++ rest))
  end.

(** *** Task2.py

    [main] is one sequence of statements; it is given here block by block,
    each block a computation of its own under the name the specification
    has for that step, with the lines of the source it stands for. *)

(** [log], lines 14-16 *)
Definition log (message : string) : M unit :=
  t <- datetime_now ;;
  print ("[" ++ strftime_log t ++ "] " ++ message).

(** [run_cmd], lines 20-28 *)
Definition run_cmd (cmd : string) (dir : option string) : M string :=
  log ("Запуск команды: " ++ cmd ++ " (директория: "
       ++ match dir with
          | Some d => if d =? "" then "текущая" else d
          | None => "текущая"
          end ++ ")") ;;
  r <- get_fs ;;
  let '((returncode, out, err), r') := shell E cmd dir r in
  set_fs r' ;;
  if negb (Z.eqb returncode 0) then
    log ("Команда завершилась с ошибкой! Код: " ++ PyStr.of_Z returncode) ;;
    log ("stderr: " ++ str_strip E err) ;;
    raise (BuildScriptError ("Ошибка выполнения команды: " ++ cmd))
  else
    log ("Команда выполнена успешно, вывод:" ++ Json.newline ++ str_strip E out) ;;
    ret (str_strip E out).

(** line 33 *)
Definition tmp_dir : PurePath.t := PurePath.parse "tmp_repo".

(** [main], lines 36-41: the workspace reset *)
Definition reset : M unit :=
  e <- path_exists tmp_dir ;;
  if e then
    log ("Временная папка " ++ PurePath.to_string tmp_dir
         ++ " существует. Начинаем удаление...") ;;
    rmtree tmp_dir ;;
    log ("Папка " ++ PurePath.to_string tmp_dir ++ " успешно удалена")
  else
    log ("Временная папка " ++ PurePath.to_string tmp_dir
         ++ " отсутствует, пропускаем удаление").

(** [main], lines 44-46: the clone *)
Definition fetch (repo_url : string) : M unit :=
  log ("Начинаем клонирование репозитория " ++ repo_url ++ " в "
       ++ PurePath.to_string tmp_dir ++ "...") ;;
  run_cmd ("git clone " ++ repo_url ++ " " ++ PurePath.to_string tmp_dir) None ;;
  log "Репозиторий клонирован успешно".

(** line 49 *)
Definition source_dir_of (source_rel_path : string) : PurePath.t :=
  PurePath.joinpath tmp_dir (PurePath.parse source_rel_path).

(** [main], lines 49-53: the source directory is looked for *)
Definition locate (source_rel_path : string) : M PurePath.t :=
  let source_dir := source_dir_of source_rel_path in
  e <- path_exists source_dir ;;
  missing <- (if negb e then ret true
              else d <- path_is_dir source_dir ;; ret (negb d)) ;;
  if (missing : bool) then
    raise (BuildScriptError ("Папка с исходным кодом не найдена: "
                             ++ PurePath.to_string source_dir))
  else
    log ("Исходный код найден по пути: " ++ PurePath.to_string source_dir) ;;
    ret source_dir.

(** [main], lines 58-66: the body of the pruning loop *)
Definition prune_item (source_dir item : PurePath.t) : M unit :=
  if negb (PurePath.eqb item source_dir) then
    d <- path_is_dir item ;;
    if (d : bool) then
      log ("Удаляем директорию: " ++ PurePath.to_string item) ;;
      rmtree item ;;
      log ("Директория " ++ PurePath.to_string item ++ " удалена")
    else
      log ("Удаляем файл: " ++ PurePath.to_string item) ;;
      unlink item ;;
      log ("Файл " ++ PurePath.to_string item ++ " удалён")
  else ret tt.

(** [main], lines 56-67: the pruning of the workspace *)
Definition prune (source_dir : PurePath.t) : M unit :=
  log ("Удаляем все файлы и папки в " ++ PurePath.to_string tmp_dir ++ ", кроме "
       ++ PurePath.to_string source_dir ++ "...") ;;
  items <- iterdir tmp_dir ;;
  for_each items (prune_item source_dir) ;;
  log "Удаление завершено".

(** line 71: [f.suffix in ['.py', '.js', '.sh']] *)
Definition wanted_suffix (f : PurePath.t) : bool :=
  existsb (String.eqb (PurePath.suffix f)) [".py"; ".js"; ".sh"].

(** line 71: the list comprehension *)
Definition scan (r : node) (items : list PurePath.t) : list string :=
  map PurePath.name
      (filter (fun f => FSOps.is_file r (cwd E) f && wanted_suffix f) items).

(** lines 75-79 *)
Definition version_data (version : string) (files_list : list string) : json :=
  JObj [("name", JStr "hello world");
        ("version", JStr version);
        ("files", JArr (map JStr files_list))].

(** [main], lines 70-86: the manifest *)
Definition build_manifest (source_dir : PurePath.t) (version : string) : M unit :=
  log ("Собираем список файлов с расширениями .py, .js, .sh в "
       ++ PurePath.to_string source_dir ++ "...") ;;
  items <- iterdir source_dir ;;
  r <- get_fs ;;
  let files_list := scan r items in
  log ("Найдено файлов: " ++ PyStr.of_nat (List.length files_list) ++ " - "
       ++ str_of_list E files_list) ;;
  let version_json_path := PurePath.joinpath source_dir (PurePath.parse "version.json") in
  log ("Создаём служебный файл version.json по пути: "
       ++ PurePath.to_string version_json_path) ;;
  write_file version_json_path (Text (Json.dumps (version_data version files_list))) ;;
  log "Файл version.json успешно создан".

(** line 89: [Path(source_rel_path).parts[-1]] *)
Definition last_part (source_rel_path : string) : M string :=
  match PurePath.parts (PurePath.parse source_rel_path) with
  | [] => raise IndexError
  | ps => ret (last ps "")
  end.

(** [main], lines 89-97: the archive *)
Definition archive (source_rel_path : string) : M unit :=
  last_dir_name <- last_part source_rel_path ;;
  t <- datetime_now ;;
  let date_str := strftime_Ymd t in
  let archive_name := last_dir_name ++ date_str ++ ".zip" in
  let archive_path :=
    PurePath.joinpath (PurePath.mk "/" (cwd E)) (PurePath.parse archive_name) in
  log ("Создаём архив " ++ archive_name ++ " из директории " ++ source_rel_path
       ++ " внутри " ++ PurePath.to_string tmp_dir ++ "...") ;;
  make_archive (last_dir_name ++ date_str) tmp_dir source_rel_path ;;
  log ("Архив " ++ archive_name ++ " успешно создан в "
       ++ PurePath.to_string archive_path).

(** [main], lines 100-102: the workspace is removed *)
Definition teardown : M unit :=
  log ("Удаляем временную папку " ++ PurePath.to_string tmp_dir ++ " для очистки...") ;;
  rmtree tmp_dir ;;
  log ("Временная папка " ++ PurePath.to_string tmp_dir
       ++ " удалена. Сборка завершена успешно.").

(** [main], lines 31-102 *)
Definition main (repo_url source_rel_path version : string) : M unit :=
  reset ;;
  fetch repo_url ;;
  source_dir <- locate source_rel_path ;;
  prune source_dir ;;
  build_manifest source_dir version ;;
  archive source_rel_path ;;
  teardown.

Definition usage : list string :=
  ["Использование:";
   "  python build_script.py <repo_url> <relative_path_to_source> <version>"].

(** The script as it is run, lines 105-120: the exit status of the process
    and the state it leaves.  An exception that nothing catches ends the
    process with status 1. *)
Definition script (argv : list string) (w : world) : nat * world :=
  if negb (Nat.eqb (List.length argv) 4) then
    (0, snd (for_each usage print w))
  else
    let repo_url := nth 1 argv "" in
    let source_rel_path := nth 2 argv "" in
    let version := nth 3 argv "" in
    match main repo_url source_rel_path version w with
    | (Return _, w') => (0, w')
    | (Raise (BuildScriptError e), w') => (0, snd (log ("Ошибка сборки: " ++ e) w'))
    | (Raise _, w') => (1, w')
    end.

End Program.

(** ** A sample run-time environment

    A working directory [/home/op], a clock that stands still and a shell
    whose only successful command is the clone of one given repository. *)

Module Sample.

Definition home : list string := ["home"; "op"].

Definition root0 : node := Dir [("home", Dir [("op", Dir [])])].

Definition today : datetime := mkDatetime 2026 11 3 12 0 0.

Definition url : string := "https://example/repo.git".

(** [git clone url tmp_repo] leaves the work tree of the repository in
    [tmp_repo]; any other command fails. *)
Definition git (repo : node)
  : string -> option string -> node -> (Z * string * string) * node :=
  fun cmd dir r =>
    if cmd =? "git clone " ++ url ++ " tmp_repo"
    then ((0%Z, "", "Cloning into 'tmp_repo'..."),
          FS.modify home (FS.put_entry "tmp_repo" repo) r)
    else ((128%Z, "", "fatal: repository not found"), r).

Definition env_of (d : datetime) (repo : node) : env :=
  mkEnv home (fun _ => d) (git repo) PyStr.strip PyStr.repr_list.

Definition world_of (r : node) : world := mkWorld r [] 0.

Definition dot_git : node := Dir [("HEAD", File (Text "ref: refs/heads/main"))].

(** A repository whose [src/app] holds [run.py] and [notes.md]. *)
Definition nested_repo (run notes : content) : node :=
  Dir [(".git", dot_git);
       ("README.md", File (Text "demo"));
       ("src", Dir [("app", Dir [("run.py", File run); ("notes.md", File notes)])])].

(** A repository whose top-level [app] holds [run.py] and [notes.md]. *)
Definition flat_repo (run notes : content) : node :=
  Dir [(".git", dot_git);
       ("README.md", File (Text "demo"));
       ("app", Dir [("run.py", File run); ("notes.md", File notes)])].

(** The file system once a repository has been cloned into [tmp_repo]. *)
Definition cloned (repo : node) : node :=
  Dir [("home", Dir [("op", Dir [("tmp_repo", repo)])])].

(** The command line of the script for a relative path and a version. *)
Definition argv_for (rel version : string) : list string :=
  ["Task2.py"; url; rel; version].

End Sample.

(** ** Reading a JSON string literal back

    Not part of the script: the inverse of [Json.encode_string], used to
    state that the manifest loses nothing of the strings written into it. *)

Module JsonRead.

Definition hex_value (c : ascii) : option nat :=
  let n := nat_of_ascii c in
  if Nat.leb 48 n && Nat.leb n 57 then Some (n - 48)
  else if Nat.leb 97 n && Nat.leb n 102 then Some (n - 87)
  else None.

Definition prepend (c : ascii) (r : option (string * string)) : option (string * string) :=
  match r with
  | Some (s, rest) => Some (String c s, rest)
  | None => None
  end.

(** The characters of a string literal up to its closing quote, escapes
    undone, and what follows the quote. *)
Fixpoint read_chars (s : string) : option (string * string) :=
  match s with
  | EmptyString => None
  | String c r =>
      if Ascii.eqb c "034" then Some ("", r)
      else if Ascii.eqb c "\" then
        match r with
        | String e r' =>
            if Ascii.eqb e "034" then prepend "034" (read_chars r')
            else if Ascii.eqb e "\" then prepend "\" (read_chars r')
            else if Ascii.eqb e "b" then prepend "008" (read_chars r')
            else if Ascii.eqb e "f" then prepend "012" (read_chars r')
            else if Ascii.eqb e "n" then prepend "010" (read_chars r')
            else if Ascii.eqb e "r" then prepend "013" (read_chars r')
            else if Ascii.eqb e "t" then prepend "009" (read_chars r')
            else if Ascii.eqb e "u" then
              match r' with
              | String "0" (String "0" (String h (String l r''))) =>
                  match hex_value h, hex_value l with
                  | Some a, Some b => prepend (ascii_of_nat (16 * a + b)) (read_chars r'')
                  | _, _ => None
                  end
              | _ => None
              end
            else None
        | EmptyString => None
        end
      else prepend c (read_chars r)
  end.

(** A string literal at the head of a text. *)
Definition read_string (s : string) : option (string * string) :=
  match s with
  | String c r => if Ascii.eqb c "034" then read_chars r else None
  | EmptyString => None
  end.

End JsonRead.

(** ** Vocabulary of the statements *)

(** The state after one logged line. *)
Definition logged (E : env) (message : string) (w : world) : world :=
  mkWorld (fs w)
          (stdout w ++ ["[" ++ strftime_log (now E (clock_reads w)) ++ "] " ++ message])
          (S (clock_reads w)).

(** A computation that never ends in [BuildScriptError]. *)
Definition no_build_error {A : Type} (m : M A) : Prop :=
  forall w msg w', m w <> (Raise (BuildScriptError msg), w').

(** A regular file, as against a directory. *)
Definition is_regular (n : node) : bool :=
  match n with File _ => true | Dir _ => false end.

(** A file name whose suffix is one of the three the manifest lists. *)
Definition wanted_name (nm : string) : bool :=
  existsb (String.eqb (PurePath.suffix_of nm)) [".py"; ".js"; ".sh"].

(** The names of the regular files of a listing that bear a wanted suffix,
    in listing order. *)
Definition listed (es : list (string * node)) : list string :=
  map fst (filter (fun e => is_regular (snd e) && wanted_name (fst e)) es).

(** The text of a manifest with a given version and list of files. *)
Definition manifest_text (version : string) (files : list string) : content :=
  Text (Json.dumps (JObj [("name", JStr "hello world");
                          ("version", JStr version);
                          ("files", JArr (map JStr files))])).

(** A listing as a file system has them: no name twice, no entry that is
    called like the parent link. *)
Definition wf_listing (es : list (string * node)) : Prop :=
  NoDup (map fst es) /\ ~ In ".." (map fst es).

(** Whether a string holds the path separator. *)
Fixpoint has_sep (s : string) : bool :=
  match s with
  | EmptyString => false
  | String c r => Ascii.eqb c "/" || has_sep r
  end.


(** The items of a JSON array of strings at nesting depth 2, one per line. *)
Definition items_text (files : list string) : string :=
  PyStr.join ("," ++ Json.newline_indent 2) (map Json.encode_string files).

(** A JSON array of strings at nesting depth 1. *)
Definition array_text (files : list string) : string :=
  match files with
  | [] => "[]"
  | _ => "[" ++ Json.newline_indent 2 ++ items_text files ++ Json.newline_indent 1 ++ "]"
  end.

(** An entry that the pruning loop leaves once it has visited the names
    [l]: one it has not visited, or the one named [k], which it keeps. *)
Definition survives (k : string) (l : list string) (e : string * node) : bool :=
  negb (existsb (String.eqb (fst e)) l) || (fst e =? k).

(** *** The pruning loop *)

(** Whether the pruning loop keeps an entry of the temporary directory: its
    path equals the source directory. *)
Definition kept (source_dir : PurePath.t) (e : string * node) : bool :=
  PurePath.eqb (PurePath.child tmp_dir (fst e)) source_dir.

(** What the loop leaves once it has visited the names [l]. *)
Definition left_by (source_dir : PurePath.t) (l : list string) (e : string * node) : bool :=
  negb (existsb (String.eqb (fst e)) l) || kept source_dir e.

(** *** Standard output and the clock *)

(** The line [log] prints for a message at the [n]-th reading of the clock. *)
Definition stamped (E : env) (n : nat) (message : string) : string :=
  "[" ++ strftime_log (now E n) ++ "] " ++ message.

(** A line of the log stamped with one of the clock readings [lo], ...,
    [hi - 1]. *)
Definition log_line (E : env) (lo hi : nat) (s : string) : Prop :=
  exists n msg, lo <= n < hi /\ s = stamped E n msg.

(** The standard output and the clock of [w'] continue those of [w]: the
    clock was not rewound, what was printed stays, and what was added are
    lines of the log stamped with readings made in between. *)
Definition extends (E : env) (w w' : world) : Prop :=
  clock_reads w <= clock_reads w'
  /\ exists l, stdout w' = (stdout w ++ l)%list
               /\ Forall (log_line E (clock_reads w) (clock_reads w')) l.

Definition only_logs (E : env) {A : Type} (m : M A) : Prop :=
  forall w o w', m w = (o, w') -> extends E w w'.

(** *** File names and time stamps *)

(** [s[:i]] *)
Fixpoint take (i : nat) (s : string) : string :=
  match i, s with
  | 0, _ => ""
  | S k, String c r => String c (take k r)
  | S _, EmptyString => ""
  end.




(** * Properties *)

(** ** The library functions on examples *)

Example parse_nested : PurePath.parse "src/app" = PurePath.mk "" ["src"; "app"].
Proof. reflexivity. Qed.

Example parse_dot : PurePath.parts (PurePath.parse ".") = [].
Proof. reflexivity. Qed.

Example parse_empty : PurePath.parts (PurePath.parse "") = [].
Proof. reflexivity. Qed.

Example parse_slashes :
  PurePath.parse "//a/./b//c/../" = PurePath.mk "//" ["a"; "b"; "c"; ".."].
Proof. reflexivity. Qed.

Example suffix_examples :
  map PurePath.suffix_of ["a.py"; "b.txt"; "README"; ".py"; "a."; "x.tar.sh"; "A.PY"]
  = [".py"; ".txt"; ""; ""; ""; ".sh"; ".PY"].
Proof. reflexivity. Qed.

Example strftime_example :
  strftime_log (mkDatetime 2026 11 3 9 5 0) = "2026-11-03 09:05:00"
  /\ strftime_Ymd (mkDatetime 2026 11 3 9 5 0) = "20261103".
Proof. split; reflexivity. Qed.

Example normpath_examples :
  map (fun s => PurePath.to_string (PurePath.normpath (PurePath.parse s)))
      ["src/app"; "a/../b/./c/.."; "../x"; "/../x"; "app/.."; ""]
  = ["src/app"; "b"; "../x"; "/x"; "."; "."].
Proof. reflexivity. Qed.

Example join_examples :
  map (fun s => PurePath.to_string (PurePath.joinpath (PurePath.parse "tmp_repo")
                                                      (PurePath.parse s)))
      ["src/app"; "."; ""; "/etc"; "app/"]
  = ["tmp_repo/src/app"; "tmp_repo"; "tmp_repo"; "/etc"; "tmp_repo/app"].
Proof. reflexivity. Qed.


(** ** Directory listings and the tree *)

Section ListingFacts.

Lemma assoc_alter_same x f es :
  FS.assoc x (FS.alter x f es) = option_map f (FS.assoc x es).
Proof.
  induction es as [|[y a] r IH]; simpl; [reflexivity|].
  destruct (y =? x) eqn:Hy; simpl; rewrite Hy; auto.
Qed.

Lemma assoc_alter_other x y f es :
  x <> y -> FS.assoc y (FS.alter x f es) = FS.assoc y es.
Proof.
  intros Hxy. induction es as [|[z a] r IH]; simpl; [reflexivity|].
  destruct (z =? x) eqn:Hz; simpl.
  - apply String.eqb_eq in Hz. subst z.
    destruct (x =? y) eqn:Hx; [apply String.eqb_eq in Hx; contradiction | reflexivity].
  - rewrite IH. reflexivity.
Qed.

Lemma assoc_del_same x es : FS.assoc x (FS.del x es) = None (A := node).
Proof.
  induction es as [|[y a] r IH]; simpl; [reflexivity|].
  destruct (y =? x) eqn:Hy; simpl; [assumption|].
  rewrite Hy. assumption.
Qed.

Lemma assoc_del_other x y es :
  x <> y -> FS.assoc y (FS.del x es) = FS.assoc y es.
Proof.
  intros Hxy. induction es as [|[z a] r IH]; simpl; [reflexivity|].
  destruct (z =? x) eqn:Hz; simpl.
  - apply String.eqb_eq in Hz. subst z.
    destruct (x =? y) eqn:Hx; [apply String.eqb_eq in Hx; contradiction | assumption].
  - rewrite IH. reflexivity.
Qed.

Lemma assoc_app_none {A : Type} x (es l : list (string * A)) :
  FS.assoc x es = None -> FS.assoc x (es ++ l) = FS.assoc x l.
Proof.
  induction es as [|[y a] r IH]; simpl; [reflexivity|].
  destruct (y =? x); [discriminate | assumption].
Qed.

Lemma assoc_app_some {A : Type} x (es l : list (string * A)) a :
  FS.assoc x es = Some a -> FS.assoc x (es ++ l) = Some a.
Proof.
  induction es as [|[y b] r IH]; simpl; [discriminate|].
  destruct (y =? x); [trivial | assumption].
Qed.

Lemma assoc_put_same x n es : FS.assoc x (FS.put x n es) = Some n.
Proof.
  unfold FS.put. destruct (FS.assoc x es) eqn:H.
  - rewrite assoc_alter_same, H. reflexivity.
  - rewrite (assoc_app_none _ _ _ H). simpl. rewrite String.eqb_refl. reflexivity.
Qed.

Lemma assoc_put_other x y n es :
  x <> y -> FS.assoc y (FS.put x n es) = FS.assoc y es.
Proof.
  intros Hxy. unfold FS.put. destruct (FS.assoc x es) eqn:H.
  - apply assoc_alter_other; assumption.
  - destruct (FS.assoc y es) eqn:Hy.
    + apply assoc_app_some; assumption.
    + rewrite (assoc_app_none _ _ _ Hy). simpl.
      destruct (x =? y) eqn:Hx; [apply String.eqb_eq in Hx; contradiction | reflexivity].
Qed.

Lemma lookup_app a b r :
  FS.lookup (a ++ b) r =
  match FS.lookup a r with
  | Some n => FS.lookup b n
  | None => None
  end.
Proof.
  revert r. induction a as [|x a IH]; intros r; simpl; [reflexivity|].
  destruct r as [c|es]; [reflexivity|].
  destruct (FS.assoc x es); [apply IH | reflexivity].
Qed.

Lemma lookup_modify loc f r :
  FS.lookup loc (FS.modify loc f r) = option_map f (FS.lookup loc r).
Proof.
  revert r. induction loc as [|x l IH]; intros r; simpl; [reflexivity|].
  destruct r as [c|es]; simpl; [reflexivity|].
  rewrite assoc_alter_same. destruct (FS.assoc x es); simpl; [apply IH | reflexivity].
Qed.

Lemma removelast_snoc {A : Type} (l : list A) x : removelast (l ++ [x]) = l.
Proof. apply removelast_last. Qed.

Lemma last_snoc {A : Type} (l : list A) x d : last (l ++ [x]) d = x.
Proof. apply last_last. Qed.

Lemma remove_at_snoc loc x r :
  FS.remove_at (loc ++ [x]) r = FS.modify loc (FS.del_entry x) r.
Proof.
  unfold FS.remove_at. rewrite removelast_snoc, last_snoc.
  destruct loc; reflexivity.
Qed.

End ListingFacts.

(** ** Steps of the monad *)

Section MonadFacts.

Variable E : env.

Lemma log_eq message w : log E message w = (Return tt, logged E message w).
Proof. reflexivity. Qed.

Lemma fs_logged message w : fs (logged E message w) = fs w.
Proof. reflexivity. Qed.

Lemma bind_eq {A B : Type} (m : M A) (k : A -> M B) w a w1 :
  m w = (Return a, w1) -> bind m k w = k a w1.
Proof. intros H. unfold bind. rewrite H. reflexivity. Qed.

Lemma bind_raise {A B : Type} (m : M A) (k : A -> M B) w e w1 :
  m w = (Raise e, w1) -> bind m k w = (Raise e, w1).
Proof. intros H. unfold bind. rewrite H. reflexivity. Qed.

Lemma bind_inv {A B : Type} (m : M A) (k : A -> M B) w o w2 :
  bind m k w = (o, w2) ->
  (exists a w1, m w = (Return a, w1) /\ k a w1 = (o, w2))
  \/ (exists e, m w = (Raise e, w2) /\ o = Raise e).
Proof.
  unfold bind. destruct (m w) as [[a|e] w1]; intros H.
  - left. exists a, w1. auto.
  - right. exists e. inversion H. auto.
Qed.

Lemma bind_log {B : Type} message (k : unit -> M B) w :
  bind (log E message) k w = k tt (logged E message w).
Proof. reflexivity. Qed.

Lemma bind_ret {A B : Type} (a : A) (k : A -> M B) w : bind (ret a) k w = k a w.
Proof. reflexivity. Qed.

Lemma bind_get_fs {B : Type} (k : node -> M B) w : bind get_fs k w = k (fs w) w.
Proof. reflexivity. Qed.

Lemma bind_set_fs {B : Type} r (k : unit -> M B) w :
  bind (set_fs r) k w = k tt (mkWorld r (stdout w) (clock_reads w)).
Proof. reflexivity. Qed.

Lemma bind_raise_now {A B : Type} e (k : A -> M B) w :
  bind (raise e) k w = (Raise e, w).
Proof. reflexivity. Qed.

Lemma bind_assoc {A B C : Type} (m : M A) (f : A -> M B) (g : B -> M C) w :
  bind (bind m f) g w = bind m (fun a => bind (f a) g) w.
Proof. unfold bind. destruct (m w) as [[a|e] w1]; reflexivity. Qed.

End MonadFacts.

Create Rewrite HintDb run.
#[local] Hint Rewrite @bind_assoc @bind_log @bind_ret @bind_get_fs @bind_set_fs
  @bind_raise_now log_eq fs_logged : run.

(** ** Resolution of the paths the script builds *)

Section ResolutionFacts.

Lemma walk_nil r cur :
  FS.walk r cur [] =
  match FS.lookup cur r with Some _ => inr cur | None => inl ENOENT end.
Proof. reflexivity. Qed.

Lemma walk_cons r cur c rest :
  FS.walk r cur (c :: rest) =
  match FS.lookup cur r with
  | None => inl ENOENT
  | Some (File _) => inl ENOTDIR
  | Some (Dir _) =>
      FS.walk r (if c =? ".." then removelast cur else cur ++ [c]) rest
  end.
Proof. simpl. destruct (FS.lookup cur r) as [[?|?]|]; reflexivity. Qed.

(** Resolution goes through a prefix of the components first. *)
Lemma walk_app r a b : forall cur,
  FS.walk r cur (a ++ b) =
  match FS.walk r cur a with
  | inl e => inl e
  | inr loc => FS.walk r loc b
  end.
Proof.
  induction a as [|c a IH]; intros cur.
  - rewrite app_nil_l, walk_nil.
    destruct (FS.lookup cur r) eqn:H; [reflexivity|].
    destruct b; simpl; rewrite H; reflexivity.
  - rewrite <- app_comm_cons, !walk_cons.
    destruct (FS.lookup cur r) as [[?|?]|]; auto.
Qed.

(** A resolved location holds a node. *)
Lemma walk_found r ps : forall cur loc,
  FS.walk r cur ps = inr loc -> exists n, FS.lookup loc r = Some n.
Proof.
  induction ps as [|c ps IH]; intros cur loc.
  - rewrite walk_nil. destruct (FS.lookup cur r) eqn:H; [|discriminate].
    intros Heq. inversion Heq. subst. eauto.
  - rewrite walk_cons. destruct (FS.lookup cur r) as [[?|?]|]; try discriminate.
    apply IH.
Qed.

(** The location of an entry of the working directory. *)
Lemma locate_entry r wd x :
  x <> ".." ->
  FSOps.locate r wd (PurePath.mk "" [x]) =
  match FS.lookup wd r with
  | None => inl ENOENT
  | Some (File _) => inl ENOTDIR
  | Some (Dir es) =>
      match FS.assoc x es with
      | Some n => inr ((wd ++ [x])%list, n)
      | None => inl ENOENT
      end
  end.
Proof.
  intros Hx. unfold FSOps.locate, FS.resolve, FS.start. simpl PurePath.root.
  simpl PurePath.tail. cbv iota beta. rewrite String.eqb_refl, walk_cons.
  destruct (FS.lookup wd r) as [[c|es]|] eqn:Hc; try reflexivity.
  apply String.eqb_neq in Hx. rewrite Hx, walk_nil, lookup_app, Hc. simpl.
  destruct (FS.assoc x es) eqn:Ha.
  - rewrite lookup_app, Hc. simpl. rewrite Ha. reflexivity.
  - reflexivity.
Qed.

Lemma locate_tmp_dir r wd :
  FSOps.locate r wd tmp_dir =
  match FS.lookup wd r with
  | None => inl ENOENT
  | Some (File _) => inl ENOTDIR
  | Some (Dir es) =>
      match FS.assoc "tmp_repo" es with
      | Some n => inr ((wd ++ ["tmp_repo"])%list, n)
      | None => inl ENOENT
      end
  end.
Proof. apply (locate_entry r wd "tmp_repo"). discriminate. Qed.

(** Once its entry is removed, the temporary path resolves to nothing. *)
Lemma tmp_dir_gone r wd :
  FSOps.exists_ (FS.remove_at (wd ++ ["tmp_repo"]) r) wd tmp_dir = false.
Proof.
  unfold FSOps.exists_. rewrite locate_tmp_dir, remove_at_snoc, lookup_modify.
  destruct (FS.lookup wd r) as [[c|es]|]; simpl; try reflexivity.
  rewrite assoc_del_same. reflexivity.
Qed.

End ResolutionFacts.

(** ** The workspace reset (lines 36-41) *)

Section ResetFacts.

Variable E : env.

Lemma tmp_dir_cases r wd :
  (FSOps.exists_ r wd tmp_dir = false /\ FSOps.is_file r wd tmp_dir = false)
  \/ (exists es, FSOps.locate r wd tmp_dir = inr ((wd ++ ["tmp_repo"])%list, Dir es))
  \/ (exists c, FSOps.locate r wd tmp_dir = inr ((wd ++ ["tmp_repo"])%list, File c)).
Proof.
  unfold FSOps.exists_, FSOps.is_file. rewrite locate_tmp_dir.
  destruct (FS.lookup wd r) as [[c|es]|]; auto.
  destruct (FS.assoc "tmp_repo" es) as [[c|es']|]; eauto.
Qed.

(** C8, as amended: from every state in which the temporary path is absent
    or is a directory (whatever it holds), the reset returns and leaves the
    path absent; a path that exists is removed with all it holds, and when
    the path is absent already the file system is left as it is. *)
Theorem reset_leaves_tmp_absent (w : world) :
  FSOps.is_file (fs w) (cwd E) tmp_dir = false ->
  exists w',
    reset E w = (Return tt, w')
    /\ FSOps.exists_ (fs w') (cwd E) tmp_dir = false
    /\ fs w' = (if FSOps.exists_ (fs w) (cwd E) tmp_dir
                then FS.remove_at (cwd E ++ ["tmp_repo"]) (fs w) else fs w).
Proof.
  intros Hfile. unfold reset, path_exists.
  destruct (tmp_dir_cases (fs w) (cwd E)) as [[Hex _]|[[es Hloc]|[c Hloc]]].
  - autorewrite with run. rewrite Hex. autorewrite with run.
    eexists. split; [reflexivity|]. autorewrite with run. auto.
  - assert (Hex : FSOps.exists_ (fs w) (cwd E) tmp_dir = true)
      by (unfold FSOps.exists_; rewrite Hloc; reflexivity).
    autorewrite with run. rewrite Hex. unfold rmtree. autorewrite with run.
    rewrite Hloc. autorewrite with run.
    eexists. split; [reflexivity|]. cbn [fs].
    split; [apply tmp_dir_gone | reflexivity].
  - unfold FSOps.is_file in Hfile. rewrite Hloc in Hfile. discriminate.
Qed.

End ResetFacts.

(** The reset at work on a workspace left by an earlier run. *)
Lemma reset_leaves_tmp_absent_witness :
  let E := Sample.env_of Sample.today (Dir []) in
  let w := Sample.world_of
             (Dir [("home", Dir [("op", Dir [("tmp_repo", Sample.flat_repo (Text "a") (Text "b"));
                                             ("keep.txt", File (Text "k"))])])]) in
  FSOps.is_file (fs w) (cwd E) tmp_dir = false
  /\ exists w',
       reset E w = (Return tt, w')
       /\ FSOps.exists_ (fs w') (cwd E) tmp_dir = false
       /\ fs w' = (if FSOps.exists_ (fs w) (cwd E) tmp_dir
                   then FS.remove_at (cwd E ++ ["tmp_repo"]) (fs w) else fs w).
Proof.
  split; [reflexivity|].
  apply (reset_leaves_tmp_absent
           (Sample.env_of Sample.today (Dir []))
           (Sample.world_of
              (Dir [("home", Dir [("op", Dir [("tmp_repo", Sample.flat_repo (Text "a") (Text "b"));
                                              ("keep.txt", File (Text "k"))])])]))).
  reflexivity.
Defined.

(** C8 as stated fails when a regular file bears the name of the temporary
    path: the path exists, [shutil.rmtree] refuses it, the reset ends in
    [NotADirectoryError] and the path is still there. *)
Lemma reset_fails_on_regular_file :
  let E := Sample.env_of Sample.today (Dir []) in
  let w := Sample.world_of
             (Dir [("home", Dir [("op", Dir [("tmp_repo", File (Text "stale"))])])]) in
  FSOps.exists_ (fs w) (cwd E) tmp_dir = true
  /\ fst (reset E w) = Raise NotADirectoryError
  /\ FSOps.exists_ (fs (snd (reset E w))) (cwd E) tmp_dir = true.
Proof. cbv zeta. repeat match goal with |- _ /\ _ => split end; vm_compute; reflexivity. Qed.

(** ** The command line (lines 105-110) *)



(** ** The source directory is looked for (lines 49-53) *)

Lemma locate_eq (E : env) (rel : string) (w : world) :
  locate E rel w =
    (if FSOps.exists_ (fs w) (cwd E) (source_dir_of rel)
        && FSOps.is_dir (fs w) (cwd E) (source_dir_of rel)
     then (Return (source_dir_of rel),
           logged E ("Исходный код найден по пути: "
                     ++ PurePath.to_string (source_dir_of rel)) w)
     else (Raise (BuildScriptError ("Папка с исходным кодом не найдена: "
                                    ++ PurePath.to_string (source_dir_of rel))), w)).
Proof.
  unfold locate, path_exists, path_is_dir. autorewrite with run.
  destruct (FSOps.exists_ (fs w) (cwd E) (source_dir_of rel)); cbn [negb andb];
    autorewrite with run; [|reflexivity].
  destruct (FSOps.is_dir (fs w) (cwd E) (source_dir_of rel)); cbn [negb];
    autorewrite with run; reflexivity.
Qed.


(** ** Which steps can raise the build error *)

Section BuildErrorFacts.

Variable E : env.

Lemma nbe_ret {A : Type} (a : A) : no_build_error (ret a).
Proof. intros w msg w' H. discriminate. Qed.

Lemma nbe_raise {A : Type} (e : exn) :
  (forall msg, e <> BuildScriptError msg) -> no_build_error (raise e (A := A)).
Proof. intros He w msg w' H. inversion H. eapply He; eassumption. Qed.

Lemma nbe_os_error {A : Type} (e : errno) : no_build_error (raise (os_error e) (A := A)).
Proof. apply nbe_raise. destruct e; discriminate. Qed.

Lemma nbe_bind {A B : Type} (m : M A) (k : A -> M B) :
  no_build_error m -> (forall a, no_build_error (k a)) -> no_build_error (bind m k).
Proof.
  intros Hm Hk w msg w' H. apply bind_inv in H.
  destruct H as [(a & w1 & H1 & H2)|(e & H1 & H2)].
  - eapply Hk; eassumption.
  - inversion H2; subst. eapply Hm; eassumption.
Qed.

Lemma nbe_get_fs : no_build_error get_fs.
Proof. intros w msg w' H. discriminate. Qed.

Lemma nbe_set_fs r : no_build_error (set_fs r).
Proof. intros w msg w' H. discriminate. Qed.

Lemma nbe_log message : no_build_error (log E message).
Proof. intros w msg w' H. discriminate. Qed.

Lemma nbe_datetime_now : no_build_error (datetime_now E).
Proof. intros w msg w' H. discriminate. Qed.

Lemma nbe_for_each {A : Type} (l : list A) (body : A -> M unit) :
  (forall x, no_build_error (body x)) -> no_build_error (for_each l body).
Proof.
  intros Hb. induction l as [|x l IH]; simpl.
  - apply nbe_ret.
  - apply nbe_bind; auto.
Qed.

(** Goes through a computation built from binds, branches and the steps
    above; [prim] settles the calls it is told about. *)
Ltac nbe_with prim :=
  repeat first
    [ prim
    | apply nbe_ret | apply nbe_get_fs | apply nbe_set_fs | apply nbe_log
    | apply nbe_datetime_now | apply nbe_os_error
    | apply nbe_raise; discriminate
    | apply nbe_for_each; intros
    | apply nbe_bind; [|intros]
    | match goal with
      | |- no_build_error (if ?b then _ else _) => destruct b
      | |- no_build_error (match ?x with _ => _ end) => destruct x
      | |- no_build_error (let (_, _) := ?x in _) => destruct x
      end ].

Lemma nbe_path_exists p : no_build_error (path_exists E p).
Proof. unfold path_exists. nbe_with fail. Qed.

Lemma nbe_path_is_dir p : no_build_error (path_is_dir E p).
Proof. unfold path_is_dir. nbe_with fail. Qed.

Lemma nbe_iterdir p : no_build_error (iterdir E p).
Proof. unfold iterdir. nbe_with fail. Qed.

Lemma nbe_rmtree p : no_build_error (rmtree E p).
Proof. unfold rmtree. nbe_with fail. Qed.

Lemma nbe_unlink p : no_build_error (unlink E p).
Proof. unfold unlink. nbe_with fail. Qed.

Lemma nbe_write_file p c : no_build_error (write_file E p c).
Proof. unfold write_file. nbe_with fail. Qed.

Ltac nbe_prim :=
  first [ apply nbe_path_exists | apply nbe_path_is_dir | apply nbe_iterdir
        | apply nbe_rmtree | apply nbe_unlink | apply nbe_write_file ].

Lemma nbe_make_archive b r d : no_build_error (make_archive E b r d).
Proof. unfold make_archive. nbe_with nbe_prim. Qed.

Lemma nbe_reset : no_build_error (reset E).
Proof. unfold reset. nbe_with nbe_prim. Qed.

Lemma nbe_prune sd : no_build_error (prune E sd).
Proof. unfold prune, prune_item. nbe_with nbe_prim. Qed.

Lemma nbe_build_manifest sd v : no_build_error (build_manifest E sd v).
Proof. unfold build_manifest. nbe_with nbe_prim. Qed.

Lemma nbe_archive rel : no_build_error (archive E rel).
Proof.
  unfold archive, last_part.
  nbe_with ltac:(first [apply nbe_make_archive | nbe_prim]).
Qed.

Lemma nbe_teardown : no_build_error (teardown E).
Proof. unfold teardown. nbe_with nbe_prim. Qed.

End BuildErrorFacts.

(** ** The top-level handler (lines 117-120) *)

Section ErrorHandling.

Variable E : env.

(** C5: when [main] ends in the build error, whether raised by the failed
    clone command or by the missing source directory, the script catches it,
    writes the one line that reports it to standard output and ends with
    status 0.  No later step has run and nothing is cleaned up: the file
    system at exit is the one the clone command left behind, the temporary
    directory included. *)
Theorem build_error_logged_and_swallowed prog url rel ver w msg w' :
  main E url rel ver w = (Raise (BuildScriptError msg), w') ->
  let cmd := "git clone " ++ url ++ " " ++ PurePath.to_string tmp_dir in
  script E [prog; url; rel; ver] w = (0, logged E ("Ошибка сборки: " ++ msg) w')
  /\ exists w1,
       reset E w = (Return tt, w1)
       /\ fs (snd (script E [prog; url; rel; ver] w)) = snd (shell E cmd None (fs w1))
       /\ (msg = "Ошибка выполнения команды: " ++ cmd
           \/ msg = "Папка с исходным кодом не найдена: "
                    ++ PurePath.to_string (source_dir_of rel)).
Proof.
  intros H. cbv zeta.
  assert (Hscript : script E [prog; url; rel; ver] w
                    = (0, logged E ("Ошибка сборки: " ++ msg) w')).
  { unfold script. cbn [List.length Nat.eqb negb nth]. rewrite H. reflexivity. }
  split; [exact Hscript|]. rewrite Hscript. cbn [snd]. rewrite fs_logged.
  unfold main in H. apply bind_inv in H.
  destruct H as [([] & w1 & Hreset & H)|(e & Hreset & He)].
  2:{ inversion He; subst. exfalso. eapply nbe_reset; eassumption. }
  exists w1. split; [assumption|].
  unfold fetch, run_cmd in H. autorewrite with run in H.
  destruct (shell E ("git clone " ++ url ++ " " ++ PurePath.to_string tmp_dir)
                  None (fs w1)) as [[[rc out] err] r'] eqn:Hs.
  cbn beta iota in H. autorewrite with run in H.
  destruct (Z.eqb rc 0); cbn [negb] in H; autorewrite with run in H.
  - apply bind_inv in H.
    destruct H as [(sd & w3 & Hloc & H)|(e & Hloc & He)].
    + exfalso. revert H.
      apply (nbe_bind (prune E sd)); [apply nbe_prune|intros _].
      apply nbe_bind; [apply nbe_build_manifest|intros _].
      apply nbe_bind; [apply nbe_archive|intros _]. apply nbe_teardown.
    + inversion He; subst e. rewrite locate_eq in Hloc.
      match type of Hloc with (if ?b then _ else _) = _ => destruct b end;
        inversion Hloc; subst. cbn [fs snd]. auto.
  - inversion H; subst. cbn [fs snd]. auto.
Qed.

End ErrorHandling.

(** The handler at work: the clone succeeds, the path asked for is not in
    the repository. *)
Lemma build_error_logged_and_swallowed_witness :
  let E := Sample.env_of Sample.today (Sample.flat_repo (Text "a") (Text "b")) in
  let w := Sample.world_of Sample.root0 in
  let msg := "Папка с исходным кодом не найдена: tmp_repo/nope" in
  let w' := snd (main E Sample.url "nope" "1.2.3" w) in
  let cmd := "git clone " ++ Sample.url ++ " " ++ PurePath.to_string tmp_dir in
  main E Sample.url "nope" "1.2.3" w = (Raise (BuildScriptError msg), w')
  /\ script E ["Task2.py"; Sample.url; "nope"; "1.2.3"] w
     = (0, logged E ("Ошибка сборки: " ++ msg) w')
  /\ exists w1,
       reset E w = (Return tt, w1)
       /\ fs (snd (script E ["Task2.py"; Sample.url; "nope"; "1.2.3"] w))
          = snd (shell E cmd None (fs w1))
       /\ (msg = "Ошибка выполнения команды: " ++ cmd
           \/ msg = "Папка с исходным кодом не найдена: "
                    ++ PurePath.to_string (source_dir_of "nope")).
Proof.
  cbv zeta. split; [vm_compute; reflexivity|].
  apply (build_error_logged_and_swallowed
           (Sample.env_of Sample.today (Sample.flat_repo (Text "a") (Text "b")))
           "Task2.py" Sample.url "nope" "1.2.3" (Sample.world_of Sample.root0)).
  vm_compute; reflexivity.
Defined.

(** ** The manifest (lines 70-86) *)

Section ManifestFacts.

Variable E : env.

Lemma locate_lookup r wd p loc n :
  FSOps.locate r wd p = inr (loc, n) ->
  FS.resolve r wd p = inr loc /\ FS.lookup loc r = Some n.
Proof.
  unfold FSOps.locate. destruct (FS.resolve r wd p) as [e|l]; [discriminate|].
  destruct (FS.lookup l r) eqn:Hl; [|discriminate].
  intros H. inversion H. subst. auto.
Qed.

Lemma write_file_eq rt l nm c w :
  nm <> ".." ->
  write_file E (PurePath.mk rt (l ++ [nm])) c w =
  match FSOps.locate (fs w) (cwd E) (PurePath.mk rt l) with
  | inl e => (Raise (os_error e), w)
  | inr (_, File _) => (Raise NotADirectoryError, w)
  | inr (loc, Dir es) =>
      match FS.assoc nm es with
      | Some (Dir _) => (Raise IsADirectoryError, w)
      | _ => (Return tt,
              mkWorld (FS.modify loc (FS.put_entry nm (File c)) (fs w))
                      (stdout w) (clock_reads w))
      end
  end.
Proof.
  intros Hnm. apply String.eqb_neq in Hnm.
  unfold write_file. autorewrite with run. cbn [PurePath.tail PurePath.root].
  destruct (l ++ [nm])%list eqn:Heq; [destruct l; discriminate|].
  rewrite <- Heq, last_snoc, removelast_snoc, Hnm.
  destruct (FSOps.locate (fs w) (cwd E) (PurePath.mk rt l)) as [e|[loc [c0|es]]];
    try reflexivity.
  destruct (FS.assoc nm es) as [[c0|es']|]; reflexivity.
Qed.

Lemma manifest_path sd :
  PurePath.joinpath sd (PurePath.parse "version.json")
  = PurePath.mk (PurePath.root sd) (PurePath.tail sd ++ ["version.json"]).
Proof. reflexivity. Qed.

Lemma iterdir_eq p w :
  iterdir E p w =
  match FSOps.locate (fs w) (cwd E) p with
  | inl e => (Raise (os_error e), w)
  | inr (_, File _) => (Raise NotADirectoryError, w)
  | inr (_, Dir es) => (Return (map (PurePath.child p) (map fst es)), w)
  end.
Proof.
  unfold iterdir. autorewrite with run.
  destruct (FSOps.locate (fs w) (cwd E) p) as [e|[loc [c|es]]]; reflexivity.
Qed.

(** What the manifest step does, case by case. *)
Lemma build_manifest_eq sd version w :
  build_manifest E sd version w =
  match FSOps.locate (fs w) (cwd E) sd with
  | inl e =>
      (Raise (os_error e),
       logged E ("Собираем список файлов с расширениями .py, .js, .sh в "
                 ++ PurePath.to_string sd ++ "...") w)
  | inr (_, File _) =>
      (Raise NotADirectoryError,
       logged E ("Собираем список файлов с расширениями .py, .js, .sh в "
                 ++ PurePath.to_string sd ++ "...") w)
  | inr (loc, Dir es) =>
      let files := scan E (fs w) (map (PurePath.child sd) (map fst es)) in
      let w3 :=
        logged E ("Создаём служебный файл version.json по пути: "
                  ++ PurePath.to_string
                       (PurePath.joinpath sd (PurePath.parse "version.json")))
          (logged E ("Найдено файлов: " ++ PyStr.of_nat (List.length files)
                     ++ " - " ++ str_of_list E files)
             (logged E ("Собираем список файлов с расширениями .py, .js, .sh в "
                        ++ PurePath.to_string sd ++ "...") w)) in
      match FS.assoc "version.json" es with
      | Some (Dir _) => (Raise IsADirectoryError, w3)
      | _ =>
          (Return tt,
           logged E "Файл version.json успешно создан"
             (mkWorld (FS.modify loc
                         (FS.put_entry "version.json"
                            (File (Text (Json.dumps (version_data version files)))))
                         (fs w))
                      (stdout w3) (clock_reads w3)))
      end
  end.
Proof.
  unfold build_manifest. autorewrite with run.
  unfold bind at 1. rewrite iterdir_eq. cbn [fs logged].
  destruct (FSOps.locate (fs w) (cwd E) sd) as [e|[loc [c|es]]] eqn:Hloc;
    try reflexivity.
  autorewrite with run. rewrite manifest_path.
  unfold bind at 1. rewrite write_file_eq by discriminate.
  cbn [fs logged]. destruct sd as [rt l]. cbn [PurePath.root PurePath.tail].
  rewrite Hloc.
  destruct (FS.assoc "version.json" es) as [[c|es']|]; reflexivity.
Qed.



Lemma name_child p nm : PurePath.name (PurePath.child p nm) = nm.
Proof. unfold PurePath.name, PurePath.child. cbn [PurePath.tail]. apply last_snoc. Qed.

Lemma wanted_suffix_child p nm :
  wanted_suffix (PurePath.child p nm) = wanted_name nm.
Proof. unfold wanted_suffix, wanted_name, PurePath.suffix. rewrite name_child. reflexivity. Qed.

Lemma wanted_name_in nm :
  wanted_name nm = true -> In (PurePath.suffix_of nm) [".py"; ".js"; ".sh"].
Proof.
  unfold wanted_name. rewrite existsb_exists. intros (x & Hin & Heq).
  apply String.eqb_eq in Heq. subst x. exact Hin.
Qed.

(** Every name the scan keeps bears one of the three suffixes. *)
Lemma scan_wanted r sd names f :
  In f (scan E r (map (PurePath.child sd) names)) -> wanted_name f = true.
Proof.
  unfold scan. rewrite in_map_iff. intros (item & Hname & Hin).
  apply filter_In in Hin. destruct Hin as [Hin Hkeep].
  apply in_map_iff in Hin. destruct Hin as (nm & Hitem & _). subst item.
  rewrite name_child in Hname. subst f.
  apply andb_true_iff in Hkeep. destruct Hkeep as [_ Hw].
  rewrite wanted_suffix_child in Hw. exact Hw.
Qed.

(** C10: whenever the manifest step returns, the manifest it wrote into the
    source directory lists only names that bear one of the suffixes [.py],
    [.js], [.sh]; the name [version.json] is never among them, whatever the
    directory held before (a [version.json] included): the listing is read,
    and filtered by suffix, before the file is written. *)
Theorem manifest_never_lists_itself sd version w w' :
  build_manifest E sd version w = (Return tt, w') ->
  exists loc files,
    FS.resolve (fs w) (cwd E) sd = inr loc
    /\ FS.lookup (loc ++ ["version.json"]) (fs w')
       = Some (File (manifest_text version files))
    /\ Forall (fun f => In (PurePath.suffix_of f) [".py"; ".js"; ".sh"]) files
    /\ ~ In "version.json" files.
Proof.
  rewrite build_manifest_eq.
  destruct (FSOps.locate (fs w) (cwd E) sd) as [e|[loc [c|es]]] eqn:Hloc;
    try discriminate.
  apply locate_lookup in Hloc. destruct Hloc as [Hres Hlook].
  cbv zeta. intros H.
  exists loc, (scan E (fs w) (map (PurePath.child sd) (map fst es))).
  split; [exact Hres|]. split; [|split].
  - assert (Hfs : fs w' = FS.modify loc
                    (FS.put_entry "version.json"
                       (File (manifest_text version
                                (scan E (fs w) (map (PurePath.child sd) (map fst es))))))
                    (fs w)).
    { destruct (FS.assoc "version.json" es) as [[c|es']|];
        inversion H; reflexivity. }
    rewrite Hfs, lookup_app, lookup_modify, Hlook. cbn [option_map FS.put_entry FS.lookup].
    rewrite assoc_put_same. reflexivity.
  - apply Forall_forall. intros f Hin. apply wanted_name_in.
    eapply scan_wanted; eassumption.
  - intros Hin. apply scan_wanted in Hin. discriminate.
Qed.

Lemma assoc_in_nodup (es : list (string * node)) x n :
  NoDup (map fst es) -> In (x, n) es -> FS.assoc x es = Some n.
Proof.
  induction es as [|[y a] r IH]; intros Hnd Hin; [contradiction|].
  cbn [map fst] in Hnd. inversion Hnd as [|? ? Hnotin Hnd']; subst.
  simpl. destruct Hin as [Heq|Hin].
  - inversion Heq; subst. rewrite String.eqb_refl. reflexivity.
  - destruct (y =? x) eqn:Hy.
    + apply String.eqb_eq in Hy. subst y. exfalso. apply Hnotin.
      apply in_map_iff. exists (x, n). auto.
    + auto.
Qed.

(** Under a resolved directory, an entry is found where its name says. *)
Lemma locate_child r wd sd loc es x n :
  FSOps.locate r wd sd = inr (loc, Dir es) ->
  x <> ".." ->
  FS.assoc x es = Some n ->
  FSOps.locate r wd (PurePath.child sd x) = inr ((loc ++ [x])%list, n).
Proof.
  intros Hloc Hx Ha. apply locate_lookup in Hloc. destruct Hloc as [Hres Hlook].
  unfold FSOps.locate, FS.resolve in *. unfold PurePath.child.
  cbn [PurePath.root PurePath.tail]. unfold FS.start in *. cbn [PurePath.root].
  rewrite walk_app, Hres, walk_cons, Hlook.
  assert (Hl : FS.lookup (loc ++ [x]) r = Some n).
  { rewrite lookup_app, Hlook. cbn [FS.lookup]. rewrite Ha. reflexivity. }
  apply String.eqb_neq in Hx. rewrite Hx, walk_nil, Hl. cbv beta iota.
  rewrite Hl. reflexivity.
Qed.

Lemma scan_listed r sd loc es :
  FSOps.locate r (cwd E) sd = inr (loc, Dir es) ->
  wf_listing es ->
  scan E r (map (PurePath.child sd) (map fst es)) = listed es.
Proof.
  intros Hloc [Hnd Hdd]. unfold scan, listed.
  assert (Hgen : forall l, incl l es ->
            map PurePath.name
              (filter (fun f => FSOps.is_file r (cwd E) f && wanted_suffix f)
                 (map (PurePath.child sd) (map fst l)))
            = map fst (filter (fun e => is_regular (snd e) && wanted_name (fst e)) l)).
  { induction l as [|[x n] l IH]; intros Hincl; [reflexivity|].
    cbn [map fst filter snd].
    assert (Hin : In (x, n) es) by (apply Hincl; left; reflexivity).
    assert (Hx : x <> "..").
    { intros ->. apply Hdd. apply in_map_iff. exists ("..", n). auto. }
    unfold FSOps.is_file at 1.
    rewrite (locate_child r (cwd E) sd loc es x n Hloc Hx (assoc_in_nodup es x n Hnd Hin)).
    rewrite wanted_suffix_child.
    assert (Hrest := IH (fun e He => Hincl e (or_intror He))).
    destruct n as [c|es']; cbn [is_regular andb].
    - destruct (wanted_name x); cbn [map fst]; [rewrite name_child|]; rewrite Hrest;
        reflexivity.
    - exact Hrest. }
  apply Hgen. apply incl_refl.
Qed.


End ManifestFacts.

(** The suffix filter on the directory of the specification's example. *)
Example listed_example :
  listed [("a.py", File (Text "")); ("b.txt", File (Text "")); ("c.sh", File (Text ""));
          ("d.js", File (Text "")); ("README", File (Text "")); ("E.PY", File (Text ""));
          ("lib.py", Dir []); ("version.json", File (Text "{}"))]
  = ["a.py"; "c.sh"; "d.js"].
Proof. reflexivity. Qed.

Lemma manifest_never_lists_itself_witness :
  let E := Sample.env_of Sample.today (Dir []) in
  let w := Sample.world_of
             (Sample.cloned (Dir [("app", Dir [("run.py", File (Text "a"));
                                               ("version.json", File (Text "old"))])])) in
  let sd := source_dir_of "app" in
  let w' := snd (build_manifest E sd "1.2.3" w) in
  build_manifest E sd "1.2.3" w = (Return tt, w')
  /\ exists loc files,
       FS.resolve (fs w) (cwd E) sd = inr loc
       /\ FS.lookup (loc ++ ["version.json"]) (fs w')
          = Some (File (manifest_text "1.2.3" files))
       /\ Forall (fun f => In (PurePath.suffix_of f) [".py"; ".js"; ".sh"]) files
       /\ ~ In "version.json" files.
Proof.
  cbv zeta. split; [vm_compute; reflexivity|].
  apply (manifest_never_lists_itself
           (Sample.env_of Sample.today (Dir []))
           (source_dir_of "app") "1.2.3"
           (Sample.world_of
              (Sample.cloned (Dir [("app", Dir [("run.py", File (Text "a"));
                                                ("version.json", File (Text "old"))])])))).
  vm_compute; reflexivity.
Defined.



(** ** Names, normal forms and updates of the tree *)

Section NameFacts.

Lemma has_sep_app a b : has_sep (a ++ b) = has_sep a || has_sep b.
Proof.
  induction a as [|c a IH]; simpl; [reflexivity|].
  rewrite IH. apply orb_assoc.
Qed.

Lemma split_no_sep s : has_sep s = false -> PyStr.split "/" s = [s].
Proof.
  induction s as [|c s IH]; simpl; [reflexivity|].
  intros H. apply orb_false_iff in H. destruct H as [Hc Hs].
  rewrite Hc, (IH Hs). reflexivity.
Qed.

Lemma split_components s : Forall (fun x => has_sep x = false) (PyStr.split "/" s).
Proof.
  induction s as [|c s IH]; simpl.
  - repeat constructor.
  - destruct (Ascii.eqb c "/") eqn:Hc.
    + constructor; [reflexivity | exact IH].
    + destruct (PyStr.split "/" s) as [|h t].
      * repeat constructor. simpl. rewrite Hc. reflexivity.
      * inversion IH; subst. constructor; [|assumption].
        simpl. rewrite Hc. assumption.
Qed.

(** The components of a parsed path hold no separator and are neither empty
    nor a dot. *)
Lemma parse_components s :
  Forall (fun x => has_sep x = false /\ x <> "" /\ x <> ".")
         (PurePath.tail (PurePath.parse s)).
Proof.
  unfold PurePath.parse. destruct (PurePath.splitroot s) as [rt rel].
  cbn [PurePath.tail]. apply Forall_forall. intros x Hin.
  apply filter_In in Hin. destruct Hin as [Hin Hkeep].
  split.
  - pose proof (split_components rel) as Hall. rewrite Forall_forall in Hall. auto.
  - unfold PurePath.keep_component in Hkeep. apply andb_true_iff in Hkeep.
    destruct Hkeep as [H1 H2]. apply negb_true_iff in H1, H2.
    apply String.eqb_neq in H1, H2. auto.
Qed.

Lemma parse_plain s :
  has_sep s = false -> s <> "" -> s <> "." -> PurePath.parse s = PurePath.mk "" [s].
Proof.
  intros Hsep He Hd. unfold PurePath.parse.
  assert (Hroot : PurePath.splitroot s = ("", s)).
  { destruct s as [|c s]; [reflexivity|]. simpl in Hsep.
    apply orb_false_iff in Hsep. destruct Hsep as [Hc _].
    unfold PurePath.splitroot.
    destruct c as [[] [] [] [] [] [] [] []]; try reflexivity; discriminate. }
  rewrite Hroot, (split_no_sep s Hsep). cbn [filter].
  unfold PurePath.keep_component.
  apply String.eqb_neq in He, Hd. rewrite He, Hd. reflexivity.
Qed.

Lemma uint_no_sep d : has_sep (DecimalString.NilEmpty.string_of_uint d) = false.
Proof. induction d; simpl; auto. Qed.

Lemma zeros_no_sep k : has_sep (PyStr.zeros k) = false.
Proof. induction k; simpl; auto. Qed.

Lemma pad_no_sep w n : has_sep (pad w n) = false.
Proof.
  unfold pad, PyStr.zfill, PyStr.of_nat.
  rewrite has_sep_app, zeros_no_sep, uint_no_sep. reflexivity.
Qed.

Lemma strftime_Ymd_no_sep d : has_sep (strftime_Ymd d) = false.
Proof. unfold strftime_Ymd. rewrite !has_sep_app, !pad_no_sep. reflexivity. Qed.

Lemma length_app a b : String.length (a ++ b) = String.length a + String.length b.
Proof. induction a as [|c a IH]; simpl; auto. Qed.

(** The name of the archive is one plain component, and no name the script
    treats specially. *)
Lemma zip_name_plain base :
  has_sep base = false ->
  PurePath.parse (base ++ ".zip") = PurePath.mk "" [base ++ ".zip"]
  /\ base ++ ".zip" <> ".." /\ base ++ ".zip" <> "tmp_repo".
Proof.
  intros Hsep.
  assert (Hlen : 4 <= String.length (base ++ ".zip"))
    by (rewrite length_app; simpl; lia).
  split; [|split].
  - apply parse_plain.
    + rewrite has_sep_app, Hsep. reflexivity.
    + intros H. rewrite H in Hlen. simpl in Hlen. lia.
    + intros H. rewrite H in Hlen. simpl in Hlen. lia.
  - intros H. rewrite H in Hlen. simpl in Hlen. lia.
  - intros H. assert (Hl : String.length base = 4).
    { apply (f_equal String.length) in H. rewrite length_app in H. simpl in H. lia. }
    destruct base as [|c1 [|c2 [|c3 [|c4 [|c5 b]]]]]; simpl in Hl; try discriminate.
Qed.

Lemma norm_rev_plain b ps : forall acc,
  ~ In ".." ps -> PurePath.norm_rev b acc ps = (List.rev ps ++ acc)%list.
Proof.
  induction ps as [|c ps IH]; intros acc Hni; [reflexivity|].
  simpl. destruct (c =? "..") eqn:Hc.
  - apply String.eqb_eq in Hc. subst c. exfalso. apply Hni. left. reflexivity.
  - rewrite IH by (intros H; apply Hni; right; exact H).
    rewrite <- app_assoc. reflexivity.
Qed.

Lemma normpath_plain p :
  ~ In ".." (PurePath.tail p) -> PurePath.normpath p = p.
Proof.
  intros Hni. unfold PurePath.normpath. rewrite norm_rev_plain by assumption.
  rewrite app_nil_r, rev_involutive. destruct p; reflexivity.
Qed.

End NameFacts.

Section TreeUpdateFacts.

Lemma alter_ext x f g es :
  (forall n, f n = g n) -> FS.alter x f es = FS.alter x g es.
Proof.
  intros H. induction es as [|[y a] r IH]; simpl; [reflexivity|].
  destruct (y =? x); [rewrite H | rewrite IH]; reflexivity.
Qed.

Lemma alter_alter x f g es :
  FS.alter x f (FS.alter x g es) = FS.alter x (fun n => f (g n)) es.
Proof.
  induction es as [|[y a] r IH]; simpl; [reflexivity|].
  destruct (y =? x) eqn:Hy; simpl; rewrite Hy; [reflexivity|].
  rewrite IH. reflexivity.
Qed.

Lemma alter_app_none x f (es l : list (string * node)) :
  FS.assoc x es = None -> FS.alter x f (es ++ l) = (es ++ FS.alter x f l)%list.
Proof.
  induction es as [|[y a] r IH]; simpl; [reflexivity|].
  destruct (y =? x); [discriminate|]. intros H. rewrite IH by assumption. reflexivity.
Qed.

Lemma put_put x a b es : FS.put x b (FS.put x a es) = FS.put x b es.
Proof.
  unfold FS.put at 1. rewrite assoc_put_same.
  unfold FS.put. destruct (FS.assoc x es) eqn:H.
  - rewrite alter_alter. reflexivity.
  - rewrite alter_app_none by assumption. simpl. rewrite String.eqb_refl. reflexivity.
Qed.

Lemma modify_ext loc f g : forall r,
  (forall n, f n = g n) -> FS.modify loc f r = FS.modify loc g r.
Proof.
  induction loc as [|x l IH]; intros r H; simpl; [apply H|].
  destruct r as [c|es]; [reflexivity|].
  f_equal. apply alter_ext. intros n. apply IH. exact H.
Qed.

Lemma modify_modify loc f g : forall r,
  FS.modify loc f (FS.modify loc g r) = FS.modify loc (fun n => f (g n)) r.
Proof.
  induction loc as [|x l IH]; intros r; simpl; [reflexivity|].
  destruct r as [c|es]; simpl; [reflexivity|].
  f_equal. rewrite alter_alter. apply alter_ext. intros n. apply IH.
Qed.

(** Writing a file twice under one name leaves the second content. *)
Lemma write_twice loc x a b r :
  FS.modify loc (FS.put_entry x (File b)) (FS.modify loc (FS.put_entry x (File a)) r)
  = FS.modify loc (FS.put_entry x (File b)) r.
Proof.
  rewrite modify_modify. apply modify_ext. intros [c|es]; simpl; [reflexivity|].
  rewrite put_put. reflexivity.
Qed.

(** An entry under another name is not touched by a write. *)
Lemma lookup_beside_write loc x rest z v r :
  z <> x ->
  FS.lookup (loc ++ x :: rest) (FS.modify loc (FS.put_entry z v) r)
  = FS.lookup (loc ++ x :: rest) r.
Proof.
  intros Hzx. rewrite !lookup_app, lookup_modify.
  destruct (FS.lookup loc r) as [[c|es]|]; simpl; try reflexivity.
  rewrite assoc_put_other by assumption. reflexivity.
Qed.

(** A path of plain names resolves to the location it spells. *)
Lemma walk_plain r ps : forall cur n,
  ~ In ".." ps ->
  FS.lookup (cur ++ ps) r = Some n ->
  FS.walk r cur ps = inr (cur ++ ps)%list.
Proof.
  induction ps as [|c ps IH]; intros cur n Hni Hl.
  - rewrite app_nil_r in *. rewrite walk_nil, Hl. reflexivity.
  - rewrite walk_cons. pose proof Hl as Hl'. rewrite lookup_app in Hl'.
    destruct (FS.lookup cur r) as [[f|es]|]; try discriminate.
    destruct (c =? "..") eqn:Hc.
    + apply String.eqb_eq in Hc. subst c. exfalso. apply Hni. left. reflexivity.
    + replace (cur ++ c :: ps)%list with ((cur ++ [c]) ++ ps)%list
        by (rewrite <- app_assoc; reflexivity).
      apply (IH _ n); [intros H; apply Hni; right; exact H|].
      rewrite <- app_assoc. exact Hl.
Qed.

(** The location and the node of a relative path of plain names. *)
Lemma locate_plain r wd ps n :
  ~ In ".." ps ->
  FS.lookup (wd ++ ps) r = Some n ->
  FSOps.locate r wd (PurePath.mk "" ps) = inr ((wd ++ ps)%list, n).
Proof.
  intros Hni Hl. unfold FSOps.locate, FS.resolve, FS.start.
  cbn [PurePath.root PurePath.tail]. rewrite String.eqb_refl.
  rewrite (walk_plain r ps wd n Hni Hl), Hl. reflexivity.
Qed.

End TreeUpdateFacts.

Section ArchiveFacts.

Variable E : env.

Lemma append_assoc (a b c : string) : (a ++ b) ++ c = a ++ b ++ c.
Proof. induction a as [|x a IH]; simpl; [reflexivity|]. rewrite IH. reflexivity. Qed.

Lemma last_in {A : Type} (l : list A) d : l <> [] -> In (last l d) l.
Proof.
  induction l as [|x l IH]; intros H; [contradiction|].
  destruct l as [|y l]; [left; reflexivity|]. right. apply IH. discriminate.
Qed.

Lemma locate_here r wd n :
  FS.lookup wd r = Some n -> FSOps.locate r wd (PurePath.mk "" []) = inr (wd, n).
Proof.
  intros H. rewrite <- (app_nil_r wd) at 2.
  rewrite (locate_plain r wd [] n); rewrite ?app_nil_r; auto.
Qed.

(** Writing a file into the working directory. *)
Lemma write_in_cwd z c w ces :
  z <> ".." ->
  FS.lookup (cwd E) (fs w) = Some (Dir ces) ->
  (forall es', FS.assoc z ces <> Some (Dir es')) ->
  write_file E (PurePath.mk "" [z]) c w =
  (Return tt, mkWorld (FS.modify (cwd E) (FS.put_entry z (File c)) (fs w))
                      (stdout w) (clock_reads w)).
Proof.
  intros Hz Hcwd Hnodir.
  change (PurePath.mk "" [z]) with (PurePath.mk "" ([] ++ [z])).
  rewrite (write_file_eq E "" [] z c w Hz), (locate_here _ _ _ Hcwd).
  destruct (FS.assoc z ces) as [[c0|es']|] eqn:Ha; try reflexivity.
  exfalso. eapply Hnodir. reflexivity.
Qed.

Lemma make_archive_eq base rel ps w ses ces :
  PurePath.parse rel = PurePath.mk "" ps ->
  ps <> [] ->
  ~ In ".." ps ->
  has_sep base = false ->
  FS.lookup (cwd E) (fs w) = Some (Dir ces) ->
  FS.lookup (cwd E ++ "tmp_repo" :: ps) (fs w) = Some (Dir ses) ->
  (forall es', FS.assoc (base ++ ".zip") ces <> Some (Dir es')) ->
  make_archive E base tmp_dir rel w =
  (Return tt,
   mkWorld (FS.modify (cwd E)
              (FS.put_entry (base ++ ".zip")
                 (File (Zip (FS.dir_member ps :: FS.walk_members ps (Dir ses)))))
              (fs w))
           (stdout w) (clock_reads w)).
Proof.
  intros Hp Hne Hplain Hbase Hcwd Hsrc Hnodir.
  destruct (zip_name_plain base Hbase) as (Hparse & Hdd & Htmp).
  assert (Htd : exists tes, FSOps.locate (fs w) (cwd E) tmp_dir
                            = inr ((cwd E ++ ["tmp_repo"])%list, Dir tes)).
  { rewrite locate_tmp_dir, Hcwd. pose proof Hsrc as Hs.
    rewrite lookup_app, Hcwd in Hs. cbn [FS.lookup] in Hs.
    destruct (FS.assoc "tmp_repo" ces) as [tn|]; [|discriminate].
    destruct ps as [|x ps']; [contradiction|].
    destruct tn as [c|tes]; [discriminate|]. eauto. }
  destruct Htd as [tes Htd].
  unfold make_archive. autorewrite with run. rewrite Htd. cbv beta iota.
  rewrite Hp, (normpath_plain (PurePath.mk "" ps) Hplain), Hparse.
  unfold bind at 1. rewrite (write_in_cwd _ _ _ ces Hdd Hcwd Hnodir).
  autorewrite with run. cbn [fs].
  set (r1 := FS.modify (cwd E) (FS.put_entry (base ++ ".zip") (File (Zip []))) (fs w)).
  assert (Hsrc1 : FSOps.locate r1 (cwd E ++ ["tmp_repo"]) (PurePath.mk "" ps)
                  = inr (((cwd E ++ ["tmp_repo"]) ++ ps)%list, Dir ses)).
  { apply locate_plain; [assumption|]. rewrite <- app_assoc. cbn [app].
    unfold r1. rewrite lookup_beside_write by assumption. exact Hsrc. }
  rewrite Hsrc1. unfold PurePath.parts. cbn [PurePath.root PurePath.tail String.eqb].
  destruct ps as [|x ps'] eqn:Hps; [contradiction|]. rewrite <- Hps in *.
  autorewrite with run. cbn [FSOps.member_of app].
  assert (Hcwd1 : FS.lookup (cwd E) r1
                  = Some (Dir (FS.put (base ++ ".zip") (File (Zip [])) ces))).
  { unfold r1. rewrite lookup_modify, Hcwd. reflexivity. }
  rewrite (write_in_cwd (base ++ ".zip") _ (mkWorld r1 (stdout w) (clock_reads w)) _
             Hdd Hcwd1).
  - cbn [fs stdout clock_reads]. unfold r1. rewrite write_twice. reflexivity.
  - intros es'. rewrite assoc_put_same. discriminate.
Qed.

Lemma archive_eq rel w ses ces :
  let p := PurePath.parse rel in
  let zname := last (PurePath.tail p) "" ++ strftime_Ymd (now E (clock_reads w)) ++ ".zip" in
  PurePath.root p = "" ->
  PurePath.tail p <> [] ->
  ~ In ".." (PurePath.tail p) ->
  FS.lookup (cwd E) (fs w) = Some (Dir ces) ->
  FS.lookup (cwd E ++ "tmp_repo" :: PurePath.tail p) (fs w) = Some (Dir ses) ->
  (forall es', FS.assoc zname ces <> Some (Dir es')) ->
  exists w',
    archive E rel w = (Return tt, w')
    /\ fs w' = FS.modify (cwd E)
                 (FS.put_entry zname
                    (File (Zip (FS.dir_member (PurePath.tail p)
                                :: FS.walk_members (PurePath.tail p) (Dir ses)))))
                 (fs w).
Proof.
  cbv zeta. intros Hrel Hne Hplain Hcwd Hsrc Hnodir.
  pose proof (parse_components rel) as Hall. rewrite Forall_forall in Hall.
  destruct (PurePath.parse rel) as [rt ps] eqn:Hp.
  cbn [PurePath.root PurePath.tail] in *. subst rt.
  assert (Hnm : has_sep (last ps "") = false) by (apply Hall, last_in, Hne).
  unfold archive, last_part. rewrite Hp. unfold PurePath.parts.
  cbn [PurePath.root PurePath.tail String.eqb].
  destruct ps as [|x ps'] eqn:Hps; [contradiction|]. rewrite <- Hps in *.
  autorewrite with run. unfold bind at 1, datetime_now.
  set (date := strftime_Ymd (now E (clock_reads w))) in *.
  autorewrite with run.
  assert (Hbase : has_sep (last ps "" ++ date) = false).
  { rewrite has_sep_app, Hnm. apply strftime_Ymd_no_sep. }
  unfold bind at 1.
  rewrite (make_archive_eq (last ps "" ++ date) rel ps _ ses ces Hp Hne Hplain Hbase).
  - autorewrite with run. eexists. split; [reflexivity|].
    cbn [fs logged]. rewrite append_assoc. reflexivity.
  - exact Hcwd.
  - exact Hsrc.
  - rewrite append_assoc. exact Hnodir.
Qed.

End ArchiveFacts.

Section MemberFacts.



Lemma arcname_snoc prefix x :
  prefix <> [] -> FS.arcname (prefix ++ [x]) = FS.arcname prefix ++ "/" ++ x.
Proof.
  unfold FS.arcname, PyStr.join.
  induction prefix as [|a l IH]; intros Hne; [contradiction|].
  destruct l as [|b l]; [reflexivity|].
  change (String.concat "/" ((a :: b :: l) ++ [x]))
    with (a ++ "/" ++ String.concat "/" ((b :: l) ++ [x])).
  rewrite IH by discriminate.
  change (String.concat "/" (a :: b :: l))
    with (a ++ "/" ++ String.concat "/" (b :: l)).
  rewrite !append_assoc. reflexivity.
Qed.

Lemma arcname_app prefix l :
  prefix <> [] -> l <> [] ->
  FS.arcname (prefix ++ l) = FS.arcname prefix ++ "/" ++ FS.arcname l.
Proof.
  revert prefix. induction l as [|x l IH]; intros prefix Hp Hl; [contradiction|].
  destruct l as [|y l].
  - apply arcname_snoc. exact Hp.
  - replace (prefix ++ x :: y :: l)%list with ((prefix ++ [x]) ++ y :: l)%list
      by (rewrite <- app_assoc; reflexivity).
    rewrite IH; [|destruct prefix; discriminate|discriminate].
    rewrite arcname_snoc by assumption.
    unfold FS.arcname at 3 4, PyStr.join. cbn [String.concat].
    rewrite !append_assoc. reflexivity.
Qed.




Lemma assoc_in {A : Type} x (es : list (string * A)) a :
  FS.assoc x es = Some a -> In (x, a) es.
Proof.
  induction es as [|[y b] r IH]; simpl; [discriminate|].
  destruct (y =? x) eqn:Hy.
  - apply String.eqb_eq in Hy. intros H. inversion H. subst. left. reflexivity.
  - intros H. right. auto.
Qed.


End MemberFacts.

(** ** The archive (lines 89-97) *)

Section ArchiveTheorem.

Variable E : env.



End ArchiveTheorem.



(** ** The text of the manifest *)

(** A string literal is read back as the string it was written from. *)
Lemma read_chars_escape s rest :
  JsonRead.read_chars (Json.escape s ++ String "034" rest) = Some (s, rest).
Proof.
  induction s as [|c s IH]; [reflexivity|].
  cbn [Json.escape]. rewrite append_assoc.
  destruct c as [[] [] [] [] [] [] [] []];
    match goal with
    | |- context [Json.escape_char ?c] =>
        let e := eval vm_compute in (Json.escape_char c) in
        change (Json.escape_char c) with e
    end;
    simpl; rewrite IH; reflexivity.
Qed.

Lemma encode_string_read_back s rest :
  JsonRead.read_string (Json.encode_string s ++ rest) = Some (s, rest).
Proof.
  unfold Json.encode_string. cbn [append JsonRead.read_string Ascii.eqb Bool.eqb].
  cbv beta iota. rewrite append_assoc. apply read_chars_escape.
Qed.

Section ManifestText.

Lemma append_inj_l (a x y : string) : a ++ x = a ++ y -> x = y.
Proof. induction a as [|c a IH]; simpl; intros H; [exact H|]. inversion H. auto. Qed.

Lemma encode_string_inj a b x y :
  Json.encode_string a ++ x = Json.encode_string b ++ y -> a = b /\ x = y.
Proof.
  intros H. apply (f_equal JsonRead.read_string) in H.
  rewrite !encode_string_read_back in H. inversion H. auto.
Qed.

Lemma items_text_cons a l :
  items_text (a :: l) =
  match l with
  | [] => Json.encode_string a
  | _ => Json.encode_string a ++ "," ++ Json.newline_indent 2 ++ items_text l
  end.
Proof. destruct l; reflexivity. Qed.

Lemma items_text_inj l1 : forall a b l2 t1 t2,
  items_text (a :: l1) ++ String "010" t1 = items_text (b :: l2) ++ String "010" t2 ->
  a :: l1 = b :: l2.
Proof.
  induction l1 as [|a' l1 IH]; intros a b l2 t1 t2 H;
    rewrite (items_text_cons a), (items_text_cons b) in H.
  - destruct l2 as [|b' l2].
    + apply encode_string_inj in H. destruct H as [-> _]. reflexivity.
    + rewrite append_assoc in H. apply encode_string_inj in H.
      destruct H as [_ H]. discriminate.
  - destruct l2 as [|b' l2].
    + rewrite append_assoc in H. apply encode_string_inj in H.
      destruct H as [_ H]. discriminate.
    + rewrite !append_assoc in H. apply encode_string_inj in H.
      destruct H as [-> H]. do 2 apply append_inj_l in H.
      f_equal. eapply IH. exact H.
Qed.

(** The text of a manifest tells its version and its list of files: to
    read it back is to find them as they were given. *)
(** The text of a manifest, laid out. *)
Lemma manifest_text_shape v f :
  manifest_text v f =
  Text ("{" ++ Json.newline_indent 1
        ++ Json.encode_string "name" ++ ": " ++ Json.encode_string "hello world"
        ++ "," ++ Json.newline_indent 1
        ++ Json.encode_string "version" ++ ": " ++ Json.encode_string v
        ++ "," ++ Json.newline_indent 1
        ++ Json.encode_string "files" ++ ": " ++ array_text f
        ++ Json.newline_indent 0 ++ "}").
Proof.
  unfold manifest_text, Json.dumps, array_text, items_text. f_equal.
  destruct f as [|a l]; cbn [Json.dumps_at map fst snd PyStr.join String.concat];
    rewrite ?map_map; rewrite !append_assoc; reflexivity.
Qed.

Lemma array_text_inj f1 f2 t :
  array_text f1 ++ String "010" t = array_text f2 ++ String "010" t -> f1 = f2.
Proof.
  destruct f1 as [|a l1], f2 as [|b l2]; intros H; try reflexivity;
    try (unfold array_text, Json.newline_indent, Json.newline in H;
         cbn [append] in H; discriminate).
  unfold array_text in H. rewrite !append_assoc in H.
  do 2 apply append_inj_l in H.
  apply (items_text_inj l1 a b l2 (Json.spaces 4 ++ "]" ++ String "010" t)
           (Json.spaces 4 ++ "]" ++ String "010" t)).
  exact H.
Qed.

(** The text of a manifest tells its version and its list of files: to
    read it back is to find them as they were given. *)
Lemma manifest_text_inj v1 f1 v2 f2 :
  manifest_text v1 f1 = manifest_text v2 f2 -> v1 = v2 /\ f1 = f2.
Proof.
  rewrite !manifest_text_shape. intros H. injection H as H.
  rewrite !append_assoc in H. cbn [append] in H.
  apply (f_equal JsonRead.read_chars) in H. rewrite !read_chars_escape in H.
  injection H as Hv H. split; [exact Hv|].
  repeat match type of H with String _ _ = String _ _ => injection H as H end.
  apply (array_text_inj f1 f2 "}"). exact H.
Qed.

End ManifestText.

(** ** The date in the name of the archive *)

Lemma pad_width w bound :
  forallb (fun n => Nat.eqb (String.length (pad w n)) w) (seq 0 bound) = true ->
  forall n, n < bound -> String.length (pad w n) = w.
Proof.
  intros H n Hn. rewrite forallb_forall in H. apply Nat.eqb_eq. apply H.
  apply in_seq. lia.
Qed.

(** For the years of four digits at most, the date is written on eight
    characters. *)
Lemma strftime_Ymd_length d :
  year d < 100 * 100 -> month d < 100 -> day d < 100 ->
  String.length (strftime_Ymd d) = 8.
Proof.
  intros Hy Hm Hd. unfold strftime_Ymd. rewrite !length_app.
  assert (H4 : forall n, n < 100 * 100 -> String.length (pad 4 n) = 4)
    by (apply pad_width; vm_compute; reflexivity).
  assert (H2 : forall n, n < 100 -> String.length (pad 2 n) = 2)
    by (apply pad_width; vm_compute; reflexivity).
  rewrite (H4 _ Hy), (H2 _ Hm), (H2 _ Hd). reflexivity.
Qed.

(** ** The pruning loop *)

Section PruneFacts.

Variable E : env.

Lemma item_eqb x k :
  PurePath.eqb (PurePath.child tmp_dir x) (PurePath.mk "" ["tmp_repo"; k]) = (x =? k).
Proof.
  change tmp_dir with (PurePath.mk "" ["tmp_repo"]).
  unfold PurePath.eqb, PurePath.child, PurePath.parts.
  cbn [PurePath.root PurePath.tail String.eqb app].
  destruct (String.eqb_spec x k) as [Hxk|Hxk];
    destruct (list_eq_dec string_dec ["tmp_repo"; x] ["tmp_repo"; k]) as [Heq|Hne];
    try reflexivity.
  - exfalso. apply Hne. rewrite Hxk. reflexivity.
  - exfalso. apply Hxk. inversion Heq. reflexivity.
Qed.

Lemma locate_tmp_child r wd tes x n :
  FS.lookup (wd ++ ["tmp_repo"]) r = Some (Dir tes) ->
  x <> ".." ->
  FS.assoc x tes = Some n ->
  FSOps.locate r wd (PurePath.child tmp_dir x)
  = inr (((wd ++ ["tmp_repo"]) ++ [x])%list, n).
Proof.
  intros Htmp Hx Ha.
  change (PurePath.child tmp_dir x) with (PurePath.mk "" ["tmp_repo"; x]).
  rewrite <- app_assoc. apply locate_plain.
  - intros H. simpl in H. destruct H as [H|[H|[]]]; [discriminate H | contradiction].
  - change (wd ++ ["tmp_repo"; x])%list with (wd ++ ["tmp_repo"] ++ [x])%list.
    rewrite app_assoc, lookup_app, Htmp. cbn [FS.lookup]. rewrite Ha. reflexivity.
Qed.

(** One turn of the loop on an entry other than the one to keep: the entry
    is removed, directory or file. *)
Lemma prune_item_removes k x w tes n :
  FS.lookup (cwd E ++ ["tmp_repo"]) (fs w) = Some (Dir tes) ->
  x <> ".." -> x <> k ->
  FS.assoc x tes = Some n ->
  exists w',
    prune_item E (PurePath.mk "" ["tmp_repo"; k]) (PurePath.child tmp_dir x) w
    = (Return tt, w')
    /\ fs w' = FS.modify (cwd E ++ ["tmp_repo"]) (FS.del_entry x) (fs w).
Proof.
  intros Htmp Hx Hk Ha. unfold prune_item. rewrite item_eqb.
  apply String.eqb_neq in Hk. rewrite Hk. cbn [negb].
  pose proof (locate_tmp_child (fs w) (cwd E) tes x n Htmp Hx Ha) as Hloc.
  unfold path_is_dir, FSOps.is_dir. autorewrite with run. rewrite Hloc.
  destruct n as [c|es]; autorewrite with run.
  - unfold unlink. autorewrite with run. rewrite Hloc. autorewrite with run.
    eexists. split; [reflexivity|]. cbn [fs]. apply remove_at_snoc.
  - unfold rmtree. autorewrite with run. rewrite Hloc. autorewrite with run.
    eexists. split; [reflexivity|]. cbn [fs]. apply remove_at_snoc.
Qed.

Lemma modify_const loc f n : forall r,
  FS.modify loc (fun _ => n) (FS.modify loc f r) = FS.modify loc (fun _ => n) r.
Proof. intros r. rewrite modify_modify. reflexivity. Qed.

Lemma filter_del k x l tes :
  x <> k ->
  filter (survives k l) (FS.del x tes) = filter (survives k (x :: l)) tes.
Proof.
  intros Hk. unfold FS.del. induction tes as [|[y a] r IH]; [reflexivity|].
  cbn [filter fst]. unfold survives at 2. cbn [existsb fst].
  destruct (y =? x) eqn:Hy; cbn [negb orb].
  - apply String.eqb_eq in Hy. subst y. apply String.eqb_neq in Hk. rewrite Hk.
    exact IH.
  - cbn [filter]. unfold survives at 1. cbn [fst]. rewrite IH. reflexivity.
Qed.

Lemma filter_keep k l tes :
  filter (survives k l) tes = filter (survives k (k :: l)) tes.
Proof.
  apply filter_ext. intros [y a]. unfold survives. cbn [existsb fst].
  destruct (y =? k); [|reflexivity]. cbn [orb negb]. rewrite orb_true_r. reflexivity.
Qed.

Lemma survives_nobody k (es : list (string * node)) : filter (survives k []) es = es.
Proof. induction es as [|e r IH]; [reflexivity|]. cbn. rewrite IH. reflexivity. Qed.

Lemma alter_same x f (es : list (string * node)) c :
  FS.assoc x es = Some c -> f c = c -> FS.alter x f es = es.
Proof.
  intros Ha Hf. induction es as [|[y a] r IH]; [reflexivity|].
  cbn in *. destruct (y =? x).
  - inversion Ha; subst. rewrite Hf. reflexivity.
  - rewrite IH by assumption. reflexivity.
Qed.

(** To put at a location the node that is there changes nothing. *)
Lemma modify_same loc n : forall r,
  FS.lookup loc r = Some n -> FS.modify loc (fun _ => n) r = r.
Proof.
  induction loc as [|y loc IH]; intros r H.
  - cbn in *. congruence.
  - destruct r as [c|es]; [discriminate|]. cbn [FS.lookup] in H. cbn [FS.modify].
    destruct (FS.assoc y es) as [child|] eqn:Ha; [|discriminate].
    f_equal. apply (alter_same y _ es child Ha). apply IH. exact H.
Qed.

(** The loop, by induction on the names still to visit. *)
Lemma prune_loop k l : forall w tes,
  FS.lookup (cwd E ++ ["tmp_repo"]) (fs w) = Some (Dir tes) ->
  NoDup l -> ~ In ".." l ->
  (forall x, In x l -> x <> k -> exists n, FS.assoc x tes = Some n) ->
  exists w',
    for_each (map (PurePath.child tmp_dir) l)
             (prune_item E (PurePath.mk "" ["tmp_repo"; k])) w = (Return tt, w')
    /\ fs w' = FS.modify (cwd E ++ ["tmp_repo"])
                 (fun _ => Dir (filter (survives k l) tes)) (fs w).
Proof.
  induction l as [|x l IH]; intros w tes Htmp Hnd Hdd Hin.
  - exists w. split; [reflexivity|].
    rewrite survives_nobody. symmetry. apply modify_same. exact Htmp.
  - inversion Hnd as [|? ? Hnotin Hnd']; subst.
    assert (Hdd' : ~ In ".." l) by (intros H; apply Hdd; right; exact H).
    assert (Hx : x <> "..") by (intros ->; apply Hdd; left; reflexivity).
    cbn [map for_each]. destruct (String.eqb_spec x k) as [->|Hk].
    + unfold bind at 1. unfold prune_item at 1. rewrite item_eqb, String.eqb_refl.
      cbn [negb ret].
      destruct (IH w tes Htmp Hnd' Hdd') as (w' & Hrun & Hfs).
      { intros y Hy Hyk. apply Hin; [right; exact Hy | exact Hyk]. }
      exists w'. split; [exact Hrun|]. rewrite Hfs, <- filter_keep. reflexivity.
    + destruct (Hin x (or_introl eq_refl) Hk) as [n Ha].
      destruct (prune_item_removes k x w tes n Htmp Hx Hk Ha) as (w1 & H1 & Hfs1).
      unfold bind at 1. rewrite H1.
      assert (Htmp1 : FS.lookup (cwd E ++ ["tmp_repo"]) (fs w1) = Some (Dir (FS.del x tes))).
      { rewrite Hfs1, lookup_modify, Htmp. reflexivity. }
      destruct (IH w1 (FS.del x tes) Htmp1 Hnd' Hdd') as (w' & Hrun & Hfs).
      { intros y Hy Hyk. destruct (Hin y (or_intror Hy) Hyk) as [m Hm].
        exists m. rewrite assoc_del_other; [exact Hm|].
        intros ->. contradiction. }
      exists w'. split; [exact Hrun|].
      rewrite Hfs, Hfs1, modify_const, filter_del by assumption. reflexivity.
Qed.

Lemma filter_absent k (es : list (string * node)) :
  ~ In k (map fst es) -> filter (fun e => fst e =? k) es = [].
Proof.
  induction es as [|[y a] r IH]; intros Hni; [reflexivity|].
  cbn [filter fst]. destruct (String.eqb_spec y k) as [->|Hy].
  - exfalso. apply Hni. left. reflexivity.
  - apply IH. intros H. apply Hni. right. exact H.
Qed.

Lemma filter_named k kn (es : list (string * node)) :
  NoDup (map fst es) -> FS.assoc k es = Some kn ->
  filter (fun e => fst e =? k) es = [(k, kn)].
Proof.
  induction es as [|[y a] r IH]; intros Hnd Ha; [discriminate|].
  cbn [map fst] in Hnd. inversion Hnd as [|? ? Hnotin Hnd']; subst.
  cbn [filter fst]. cbn [FS.assoc] in Ha.
  destruct (String.eqb_spec y k) as [->|Hy].
  - inversion Ha; subst. rewrite filter_absent by assumption. reflexivity.
  - apply IH; assumption.
Qed.

Lemma survivors_all k kn (es : list (string * node)) :
  NoDup (map fst es) -> FS.assoc k es = Some kn ->
  filter (survives k (map fst es)) es = [(k, kn)].
Proof.
  intros Hnd Ha. rewrite <- (filter_named k kn es Hnd Ha).
  apply filter_ext_in. intros [y a] Hin. unfold survives. cbn [fst].
  assert (Hmem : existsb (String.eqb y) (map fst es) = true).
  { apply existsb_exists. exists y. split; [|apply String.eqb_refl].
    apply in_map_iff. exists (y, a). auto. }
  rewrite Hmem. reflexivity.
Qed.

(** The pruning with a source directory that is an entry of the temporary
    directory: whatever else the clone holds is removed, the source
    directory stays with all it holds, and nothing changes outside the
    temporary directory. *)
Lemma prune_keeps_child rel k w ces tes kn :
  PurePath.parse rel = PurePath.mk "" [k] ->
  FS.lookup (cwd E) (fs w) = Some (Dir ces) ->
  FS.assoc "tmp_repo" ces = Some (Dir tes) ->
  wf_listing tes ->
  FS.assoc k tes = Some kn ->
  exists w',
    prune E (source_dir_of rel) w = (Return tt, w')
    /\ fs w' = FS.modify (cwd E ++ ["tmp_repo"]) (fun _ => Dir [(k, kn)]) (fs w).
Proof.
  intros Hp Hcwd Htmp [Hnd Hdd] Hk.
  assert (Hsd : source_dir_of rel = PurePath.mk "" ["tmp_repo"; k]).
  { unfold source_dir_of. rewrite Hp. reflexivity. }
  rewrite Hsd. unfold prune. autorewrite with run.
  unfold bind at 1. rewrite iterdir_eq. cbn [fs logged].
  rewrite locate_tmp_dir, Hcwd, Htmp.
  set (w1 := logged E _ w).
  assert (Htmp1 : FS.lookup (cwd E ++ ["tmp_repo"]) (fs w1) = Some (Dir tes)).
  { unfold w1. rewrite fs_logged, lookup_app, Hcwd. cbn [FS.lookup].
    rewrite Htmp. reflexivity. }
  destruct (prune_loop k (map fst tes) w1 tes Htmp1 Hnd Hdd) as (w2 & Hrun & Hfs).
  { intros x Hin _. apply in_map_iff in Hin. destruct Hin as ([y a] & Hy & Hin).
    cbn [fst] in Hy. subst y. exists a. apply assoc_in_nodup; assumption. }
  unfold bind at 1. rewrite Hrun. autorewrite with run.
  eexists. split; [reflexivity|].
  rewrite fs_logged, Hfs, (survivors_all k kn tes Hnd Hk). reflexivity.
Qed.

End PruneFacts.

(** Settles a conjunction of equations between closed terms by running
    the script. *)
Ltac by_running :=
  repeat match goal with |- _ /\ _ => split end; vm_compute; reflexivity.

(** ** The pruning of the workspace (lines 56-67) *)

(** C2 fails on the code for a source directory that is not an immediate
    child of the temporary directory: no child of the temporary directory
    equals [tmp_repo/src/app], so the loop deletes them all, [src] and the
    source directory in it included.  After the step the temporary
    directory is empty and the source directory is gone. *)
Theorem prune_deletes_nested_source (run notes : content) :
  let E := Sample.env_of Sample.today (Dir []) in
  let w := Sample.world_of (Sample.cloned (Sample.nested_repo run notes)) in
  let keep := source_dir_of "src/app" in
  FSOps.is_dir (fs w) (cwd E) keep = true
  /\ fst (prune E keep w) = Return tt
  /\ FSOps.exists_ (fs (snd (prune E keep w))) (cwd E) keep = false
  /\ fs (snd (prune E keep w)) = Sample.cloned (Dir []).
Proof. cbv zeta. by_running. Qed.

(** When the source directory is an immediate child, the same loop keeps
    it, with all it holds, and nothing else. *)
Example prune_keeps_top_level_source (run notes : content) :
  let E := Sample.env_of Sample.today (Dir []) in
  let w := Sample.world_of (Sample.cloned (Sample.flat_repo run notes)) in
  let keep := source_dir_of "app" in
  fst (prune E keep w) = Return tt
  /\ fs (snd (prune E keep w))
     = Sample.cloned (Dir [("app", Dir [("run.py", File run); ("notes.md", File notes)])]).
Proof. cbv zeta. by_running. Qed.

(** ** Whole runs *)

(** C9: with ["."] or the empty string as relative path, the source
    directory is the temporary directory itself, which the clone has made:
    the search succeeds, the pruning deletes every entry of the clone, the
    manifest (with no file) is written, and the archive step ends in
    [IndexError], which nothing catches: the script ends with status 1, no
    build error is reported, and the temporary directory is left with the
    manifest alone. *)
Theorem dot_path_ends_in_index_error (run notes : content) (version : string) :
  let E := Sample.env_of Sample.today (Sample.flat_repo run notes) in
  let w := Sample.world_of Sample.root0 in
  Forall
    (fun rel =>
       source_dir_of rel = tmp_dir
       /\ nth_error (stdout (snd (main E Sample.url rel version w))) 5
          = Some "[2026-11-03 12:00:00] Исходный код найден по пути: tmp_repo"
       /\ fst (main E Sample.url rel version w) = Raise IndexError
       /\ script E (Sample.argv_for rel version) w
          = (1, snd (main E Sample.url rel version w))
       /\ fs (snd (main E Sample.url rel version w))
          = Sample.cloned (Dir [("version.json", File (manifest_text version []))]))
    ["."; ""].
Proof.
  cbv zeta. constructor; [|constructor; [|constructor]]; by_running.
Qed.

(** C1 as stated fails: with the relative path [src/app] the pruning removes
    [src], the listing of the source directory ends in [FileNotFoundError],
    which nothing catches, and no archive is made.  And when the source
    directory is at the top of the repository, so that the run completes,
    [notes.md] is a member of the archive. *)
Lemma nested_run_makes_no_archive :
  let w := Sample.world_of Sample.root0 in
  let nested := Sample.env_of Sample.today
                  (Sample.nested_repo (Text "print(1)") (Text "# notes")) in
  let flat := Sample.env_of Sample.today
                (Sample.flat_repo (Text "print(1)") (Text "# notes")) in
  (fst (main nested Sample.url "src/app" "1.2.3" w) = Raise FileNotFoundError
   /\ fst (script nested (Sample.argv_for "src/app" "1.2.3") w) = 1
   /\ fs (snd (script nested (Sample.argv_for "src/app" "1.2.3") w))
      = Sample.cloned (Dir []))
  /\ (exists ms,
        FS.lookup (Sample.home ++ ["app20261103.zip"])
                  (fs (snd (script flat (Sample.argv_for "app" "1.2.3") w)))
        = Some (File (Zip ms))
        /\ In ("app/notes.md", Some (Text "# notes")) ms).
Proof.
  cbv zeta. split.
  - by_running.
  - exists [("app/", None);
            ("app/run.py", Some (Text "print(1)"));
            ("app/notes.md", Some (Text "# notes"));
            ("app/version.json", Some (manifest_text "1.2.3" ["run.py"]))].
    split; [by_running|]. right. right. left. reflexivity.
Qed.

Lemma main_steps E url rel v w :
  main E url rel v w =
  bind (bind (reset E) (fun _ => fetch E url))
       (fun _ => bind (locate E rel)
          (fun sd => bind (prune E sd)
             (fun _ => bind (build_manifest E sd v)
                (fun _ => bind (archive E rel) (fun _ => teardown E))))) w.
Proof. unfold main. symmetry. apply bind_assoc. Qed.

Lemma teardown_eq E w es :
  FSOps.locate (fs w) (cwd E) tmp_dir = inr ((cwd E ++ ["tmp_repo"])%list, Dir es) ->
  exists w', teardown E w = (Return tt, w')
             /\ fs w' = FS.remove_at (cwd E ++ ["tmp_repo"]) (fs w).
Proof.
  intros Hloc. unfold teardown, rmtree. autorewrite with run. rewrite Hloc.
  autorewrite with run. eexists. split; reflexivity.
Qed.

(** C1, as amended: with the relative path [app], against every repository
    whose [app] directory at its top holds exactly [run.py] and [notes.md],
    on whatever date, the run ends with status 0, removes the temporary
    directory and leaves in the working directory the archive
    [app<YYYYMMDD>.zip], whose members are the directory [app/] and the
    files [app/run.py], [app/notes.md] and [app/version.json]; the manifest
    has the version ["1.2.3"] and the one file [run.py]. *)
Theorem flat_run_makes_archive (today : datetime) (run notes : content)
    (tes : list (string * node)) :
  let app := [("run.py", File run); ("notes.md", File notes)] in
  let E := Sample.env_of today (Dir tes) in
  let w := Sample.world_of Sample.root0 in
  let result := script E (Sample.argv_for "app" "1.2.3") w in
  wf_listing tes ->
  FS.assoc "app" tes = Some (Dir app) ->
  fst result = 0
  /\ fs (snd result) =
     Dir [("home", Dir [("op", Dir
       [("app" ++ strftime_Ymd today ++ ".zip",
         File (Zip [("app/", None);
                    ("app/run.py", Some run);
                    ("app/notes.md", Some notes);
                    ("app/version.json", Some (manifest_text "1.2.3" ["run.py"]))]))])])].
Proof.
  cbv zeta. intros Hwf Happ.
  set (app := [("run.py", File run); ("notes.md", File notes)]) in *.
  set (E := Sample.env_of today (Dir tes)).
  set (w := Sample.world_of Sample.root0).
  set (ses := (app ++ [("version.json", File (manifest_text "1.2.3" ["run.py"]))])%list).
  (* the reset and the clone *)
  assert (H2 : fst (bind (reset E) (fun _ => fetch E Sample.url) w) = Return tt
               /\ fs (snd (bind (reset E) (fun _ => fetch E Sample.url) w))
                  = Sample.cloned (Dir tes)).
  { split; vm_compute; reflexivity. }
  destruct (bind (reset E) (fun _ => fetch E Sample.url) w) as [o2 w2] eqn:Hclone.
  cbn [fst snd] in H2. destruct H2 as [-> Hfs2].
  (* the source directory is found *)
  assert (Hsrc2 : FSOps.locate (fs w2) (cwd E) (source_dir_of "app")
                  = inr ((Sample.home ++ ["tmp_repo"; "app"])%list, Dir app)).
  { change (source_dir_of "app") with (PurePath.mk "" ["tmp_repo"; "app"]).
    apply locate_plain; [simpl; intuition discriminate|].
    rewrite Hfs2. cbn. rewrite Happ. reflexivity. }
  pose proof (locate_eq E "app" w2) as Hloc.
  unfold FSOps.exists_, FSOps.is_dir in Hloc. rewrite Hsrc2 in Hloc. cbn [andb] in Hloc.
  (* the pruning *)
  set (w3 := logged E _ w2) in Hloc.
  destruct (prune_keeps_child E "app" "app" w3 [("tmp_repo", Dir tes)] tes (Dir app))
    as (w4 & Hprune & Hfs4); try assumption; try reflexivity.
  { unfold w3. rewrite fs_logged, Hfs2. reflexivity. }
  assert (Hfs4' : fs w4 = Sample.cloned (Dir [("app", Dir app)])).
  { rewrite Hfs4. unfold w3. rewrite fs_logged, Hfs2. reflexivity. }
  (* the manifest *)
  pose proof (build_manifest_eq E (source_dir_of "app") "1.2.3" w4) as Hman.
  assert (Hsrc4 : FSOps.locate (fs w4) (cwd E) (source_dir_of "app")
                  = inr ((Sample.home ++ ["tmp_repo"; "app"])%list, Dir app)).
  { rewrite Hfs4'. reflexivity. }
  rewrite Hsrc4 in Hman. cbv zeta in Hman.
  assert (Hscan : scan E (fs w4) (map (PurePath.child (source_dir_of "app")) (map fst app))
                  = ["run.py"]).
  { rewrite Hfs4'. reflexivity. }
  rewrite Hscan in Hman. cbn [FS.assoc app String.eqb Ascii.eqb Bool.eqb] in Hman.
  set (w5 := logged E "Файл version.json успешно создан" _) in Hman.
  assert (Hfs5 : fs w5 = Sample.cloned (Dir [("app", Dir ses)])).
  { unfold w5. rewrite fs_logged. cbn [fs]. rewrite Hfs4'. reflexivity. }
  (* the archive *)
  destruct (archive_eq E "app" w5 ses [("tmp_repo", Dir [("app", Dir ses)])])
    as (w6 & H6 & Hfs6).
  - reflexivity.
  - discriminate.
  - simpl. intuition discriminate.
  - rewrite Hfs5. reflexivity.
  - rewrite Hfs5. reflexivity.
  - intros es'. simpl. discriminate.
  - rewrite Hfs5 in Hfs6.
    destruct (teardown_eq E w6 [("app", Dir ses)]) as (w7 & H7 & Hfs7).
    { rewrite Hfs6. vm_compute. reflexivity. }
    assert (Hmain : main E Sample.url "app" "1.2.3" w = (Return tt, w7)).
    { rewrite main_steps. unfold bind at 1. rewrite Hclone.
      unfold bind at 1. rewrite Hloc.
      unfold bind at 1. rewrite Hprune.
      unfold bind at 1. rewrite Hman.
      unfold bind. rewrite H6. exact H7. }
    unfold script, Sample.argv_for. cbn [List.length Nat.eqb negb nth].
    rewrite Hmain. cbn [fst snd]. split; [reflexivity|].
    rewrite Hfs7, Hfs6. vm_compute. reflexivity.
Qed.

Lemma flat_run_makes_archive_witness :
  let tes := [(".git", Sample.dot_git); ("README.md", File (Text "demo"));
              ("app", Dir [("run.py", File (Text "print(1)"));
                           ("notes.md", File (Text "# notes"))])] in
  let E := Sample.env_of Sample.today (Dir tes) in
  let result := script E (Sample.argv_for "app" "1.2.3") (Sample.world_of Sample.root0) in
  fst result = 0
  /\ fs (snd result) =
     Dir [("home", Dir [("op", Dir
       [("app20261103.zip",
         File (Zip [("app/", None);
                    ("app/run.py", Some (Text "print(1)"));
                    ("app/notes.md", Some (Text "# notes"));
                    ("app/version.json", Some (manifest_text "1.2.3" ["run.py"]))]))])])].
Proof.
  cbv zeta.
  apply (flat_run_makes_archive Sample.today (Text "print(1)") (Text "# notes")
           [(".git", Sample.dot_git); ("README.md", File (Text "demo"));
            ("app", Dir [("run.py", File (Text "print(1)"));
                         ("notes.md", File (Text "# notes"))])]).
  - split.
    + repeat constructor; simpl; intuition discriminate.
    + simpl; intuition discriminate.
  - reflexivity.
Defined.

(** * Further properties *)

(** ** The pruning loop on any clone (lines 56-67) *)

Section PruneInGeneral.

Variable E : env.

Lemma prune_item_step sd x w tes n :
  FS.lookup (cwd E ++ ["tmp_repo"]) (fs w) = Some (Dir tes) ->
  x <> ".." ->
  FS.assoc x tes = Some n ->
  exists w',
    prune_item E sd (PurePath.child tmp_dir x) w = (Return tt, w')
    /\ fs w' = (if PurePath.eqb (PurePath.child tmp_dir x) sd then fs w
                else FS.modify (cwd E ++ ["tmp_repo"]) (FS.del_entry x) (fs w)).
Proof.
  intros Htmp Hx Ha. unfold prune_item.
  destruct (PurePath.eqb (PurePath.child tmp_dir x) sd); cbn [negb].
  - exists w. split; reflexivity.
  - pose proof (locate_tmp_child (fs w) (cwd E) tes x n Htmp Hx Ha) as Hloc.
    unfold path_is_dir, FSOps.is_dir. autorewrite with run. rewrite Hloc.
    destruct n as [c|es]; autorewrite with run.
    + unfold unlink. autorewrite with run. rewrite Hloc. autorewrite with run.
      eexists. split; [reflexivity|]. cbn [fs]. apply remove_at_snoc.
    + unfold rmtree. autorewrite with run. rewrite Hloc. autorewrite with run.
      eexists. split; [reflexivity|]. cbn [fs]. apply remove_at_snoc.
Qed.

Lemma left_by_nobody sd (es : list (string * node)) : filter (left_by sd []) es = es.
Proof. induction es as [|e r IH]; [reflexivity|]. cbn. rewrite IH. reflexivity. Qed.

Lemma left_by_removed sd x l tes :
  PurePath.eqb (PurePath.child tmp_dir x) sd = false ->
  filter (left_by sd l) (FS.del x tes) = filter (left_by sd (x :: l)) tes.
Proof.
  intros Hk. unfold FS.del. induction tes as [|[y a] r IH]; [reflexivity|].
  cbn [filter fst]. unfold left_by at 2, kept. cbn [existsb fst].
  destruct (String.eqb_spec y x) as [->|Hy]; cbn [negb orb].
  - rewrite Hk. exact IH.
  - cbn [filter]. unfold left_by at 1, kept. cbn [fst]. rewrite IH. reflexivity.
Qed.

Lemma left_by_kept sd x l tes :
  PurePath.eqb (PurePath.child tmp_dir x) sd = true ->
  filter (left_by sd l) tes = filter (left_by sd (x :: l)) tes.
Proof.
  intros Hk. apply filter_ext. intros [y a]. unfold left_by, kept. cbn [existsb fst].
  destruct (String.eqb_spec y x) as [->|Hy]; [|reflexivity].
  rewrite Hk. cbn [orb negb]. rewrite orb_true_r. reflexivity.
Qed.

Lemma prune_loop_general sd l : forall w tes,
  FS.lookup (cwd E ++ ["tmp_repo"]) (fs w) = Some (Dir tes) ->
  NoDup l -> ~ In ".." l ->
  (forall x, In x l -> exists n, FS.assoc x tes = Some n) ->
  exists w',
    for_each (map (PurePath.child tmp_dir) l) (prune_item E sd) w = (Return tt, w')
    /\ fs w' = FS.modify (cwd E ++ ["tmp_repo"])
                 (fun _ => Dir (filter (left_by sd l) tes)) (fs w).
Proof.
  induction l as [|x l IH]; intros w tes Htmp Hnd Hdd Hin.
  - exists w. split; [reflexivity|].
    rewrite left_by_nobody. symmetry. apply modify_same. exact Htmp.
  - inversion Hnd as [|? ? Hnotin Hnd']; subst.
    assert (Hdd' : ~ In ".." l) by (intros H; apply Hdd; right; exact H).
    assert (Hx : x <> "..") by (intros ->; apply Hdd; left; reflexivity).
    destruct (Hin x (or_introl eq_refl)) as [n Ha].
    destruct (prune_item_step sd x w tes n Htmp Hx Ha) as (w1 & H1 & Hfs1).
    cbn [map for_each]. unfold bind at 1. rewrite H1.
    destruct (PurePath.eqb (PurePath.child tmp_dir x) sd) eqn:Hk.
    + assert (Htmp1 : FS.lookup (cwd E ++ ["tmp_repo"]) (fs w1) = Some (Dir tes))
        by (rewrite Hfs1; exact Htmp).
      destruct (IH w1 tes Htmp1 Hnd' Hdd') as (w' & Hrun & Hfs).
      { intros y Hy. apply Hin. right. exact Hy. }
      exists w'. split; [exact Hrun|].
      rewrite Hfs, Hfs1, <- (left_by_kept sd x l tes Hk). reflexivity.
    + assert (Htmp1 : FS.lookup (cwd E ++ ["tmp_repo"]) (fs w1)
                      = Some (Dir (FS.del x tes))).
      { rewrite Hfs1, lookup_modify, Htmp. reflexivity. }
      destruct (IH w1 (FS.del x tes) Htmp1 Hnd' Hdd') as (w' & Hrun & Hfs).
      { intros y Hy. destruct (Hin y (or_intror Hy)) as [m Hm].
        exists m. rewrite assoc_del_other; [exact Hm|].
        intros ->. contradiction. }
      exists w'. split; [exact Hrun|].
      rewrite Hfs, Hfs1, modify_const, (left_by_removed sd x l tes Hk). reflexivity.
Qed.

Lemma left_by_all sd (es : list (string * node)) :
  filter (left_by sd (map fst es)) es = filter (kept sd) es.
Proof.
  apply filter_ext_in. intros [y a] Hin. unfold left_by. cbn [fst].
  assert (Hmem : existsb (String.eqb y) (map fst es) = true).
  { apply existsb_exists. exists y. split; [|apply String.eqb_refl].
    apply in_map_iff. exists (y, a). auto. }
  rewrite Hmem. reflexivity.
Qed.

Lemma prune_leaves_what_equals_keep sd w ces tes :
  FS.lookup (cwd E) (fs w) = Some (Dir ces) ->
  FS.assoc "tmp_repo" ces = Some (Dir tes) ->
  wf_listing tes ->
  exists w',
    prune E sd w = (Return tt, w')
    /\ fs w' = FS.modify (cwd E ++ ["tmp_repo"])
                 (fun _ => Dir (filter (kept sd) tes)) (fs w)
    /\ FS.lookup (cwd E ++ ["tmp_repo"]) (fs w') = Some (Dir (filter (kept sd) tes)).
Proof.
  intros Hcwd Htmp [Hnd Hdd].
  unfold prune. autorewrite with run.
  unfold bind at 1. rewrite iterdir_eq. cbn [fs logged].
  rewrite locate_tmp_dir, Hcwd, Htmp.
  set (w1 := logged E _ w).
  assert (Htmp1 : FS.lookup (cwd E ++ ["tmp_repo"]) (fs w1) = Some (Dir tes)).
  { unfold w1. rewrite fs_logged, lookup_app, Hcwd. cbn [FS.lookup].
    rewrite Htmp. reflexivity. }
  destruct (prune_loop_general sd (map fst tes) w1 tes Htmp1 Hnd Hdd) as (w2 & Hrun & Hfs).
  { intros x Hin. apply in_map_iff in Hin. destruct Hin as ([y a] & Hy & Hin).
    cbn [fst] in Hy. subst y. exists a. apply assoc_in_nodup; assumption. }
  unfold bind at 1. rewrite Hrun. autorewrite with run.
  eexists. split; [reflexivity|]. rewrite fs_logged, Hfs, left_by_all.
  split; [reflexivity|].
  rewrite lookup_modify. unfold w1. rewrite fs_logged, lookup_app, Hcwd.
  cbn [FS.lookup]. rewrite Htmp. reflexivity.
Qed.

End PruneInGeneral.

Section MoreTreeFacts.







(** The parts of a path that the pruning loop keeps. *)
Lemma kept_parts sd e :
  kept sd e = true -> PurePath.parts sd = ["tmp_repo"; fst e].
Proof.
  unfold kept, PurePath.eqb.
  destruct (list_eq_dec string_dec (PurePath.parts (PurePath.child tmp_dir (fst e)))
                        (PurePath.parts sd)) as [Heq|]; [|discriminate].
  intros _. rewrite <- Heq. reflexivity.
Qed.

Lemma kept_nobody sd (es : list (string * node)) :
  (forall x, PurePath.parts sd <> ["tmp_repo"; x]) -> filter (kept sd) es = [].
Proof.
  intros Hno. induction es as [|e r IH]; [reflexivity|]. cbn [filter].
  destruct (kept sd e) eqn:Hk; [|exact IH].
  exfalso. eapply Hno. apply kept_parts. exact Hk.
Qed.

(** Under an empty temporary directory nothing is found. *)
Lemma locate_in_empty_tmp r wd a rest :
  FS.lookup (wd ++ ["tmp_repo"]) r = Some (Dir []) ->
  a <> ".." ->
  FSOps.locate r wd (PurePath.mk "" ("tmp_repo" :: a :: rest)) = inl ENOENT.
Proof.
  intros Htmp Ha. unfold FSOps.locate, FS.resolve, FS.start.
  cbn [PurePath.root PurePath.tail]. rewrite String.eqb_refl.
  assert (Hwd : exists es, FS.lookup wd r = Some (Dir es)).
  { rewrite lookup_app in Htmp. destruct (FS.lookup wd r) as [[c|es]|]; try discriminate.
    eauto. }
  destruct Hwd as [es Hwd].
  rewrite walk_cons, Hwd. cbn [String.eqb Ascii.eqb Bool.eqb].
  rewrite walk_cons, Htmp. apply String.eqb_neq in Ha. rewrite Ha.
  assert (Hnone : FS.lookup ((wd ++ ["tmp_repo"]) ++ [a]) r = None).
  { rewrite lookup_app, Htmp. reflexivity. }
  destruct rest as [|b rest]; [rewrite walk_nil | rewrite walk_cons];
    rewrite Hnone; reflexivity.
Qed.

End MoreTreeFacts.

Section PruneTheorem.
Variable E : env.

Lemma kept_iff sd e : kept sd e = true <-> PurePath.parts sd = ["tmp_repo"; fst e].
Proof.
  split; [apply kept_parts|]. intros H. unfold kept, PurePath.eqb.
  destruct (list_eq_dec string_dec (PurePath.parts (PurePath.child tmp_dir (fst e)))
                        (PurePath.parts sd)) as [|Hne]; [reflexivity|].
  exfalso. apply Hne. rewrite H. reflexivity.
Qed.

Lemma filter_at_most_one (p : string * node -> bool) (es : list (string * node)) :
  NoDup (map fst es) ->
  (forall e e', p e = true -> p e' = true -> fst e = fst e') ->
  List.length (filter p es) <= 1.
Proof.
  intros Hnd Hp. induction es as [|e r IH]; [cbn; lia|].
  cbn [map] in Hnd. inversion Hnd as [|? ? He Hr]; subst.
  cbn [filter]. destruct (p e) eqn:Hpe; [|cbn in IH; apply IH; exact Hr].
  assert (Hnone : filter p r = []).
  { destruct (filter p r) as [|e' l] eqn:Hf; [reflexivity|]. exfalso.
    assert (Hin : In e' (filter p r)) by (rewrite Hf; left; reflexivity).
    apply filter_In in Hin. destruct Hin as [Hin Hpe'].
    apply He. rewrite (Hp e e' Hpe Hpe'). apply in_map. exact Hin. }
  rewrite Hnone. cbn. lia.
Qed.

(** X1: the pruning loop on any clone and for any path to keep.  It always
    returns, and of the entries of the temporary directory it leaves those,
    at most one, whose path [tmp_repo/<name>] has the same parts as the path
    to keep, each with all it holds; every other entry, file or directory, is
    deleted.  So a path to keep that is not an immediate child of the
    temporary directory empties it. *)
Theorem prune_keeps_only_the_source_directory sd w ces tes :
  FS.lookup (cwd E) (fs w) = Some (Dir ces) ->
  FS.assoc "tmp_repo" ces = Some (Dir tes) ->
  wf_listing tes ->
  exists w' rest,
    prune E sd w = (Return tt, w')
    /\ fs w' = FS.modify (cwd E ++ ["tmp_repo"]) (fun _ => Dir rest) (fs w)
    /\ FS.lookup (cwd E ++ ["tmp_repo"]) (fs w') = Some (Dir rest)
    /\ (forall x n, In (x, n) rest
                    <-> In (x, n) tes /\ PurePath.parts sd = ["tmp_repo"; x])
    /\ List.length rest <= 1.
Proof.
  intros Hcwd Htmp Hwf.
  destruct (prune_leaves_what_equals_keep E sd w ces tes Hcwd Htmp Hwf)
    as (w' & Hrun & Hfs & Hlk).
  exists w', (filter (kept sd) tes).
  split; [exact Hrun|]. split; [exact Hfs|]. split; [exact Hlk|]. split.
  - intros x n. rewrite filter_In, kept_iff. reflexivity.
  - apply filter_at_most_one; [exact (proj1 Hwf)|].
    intros e e' He He'. apply kept_parts in He. apply kept_parts in He'.
    rewrite He in He'. injection He' as Heq. exact Heq.
Qed.

End PruneTheorem.

(** The loop on a clone of three entries, the path to keep being the third. *)
Lemma prune_keeps_only_the_source_directory_witness :
  let E := Sample.env_of Sample.today (Dir []) in
  let tes := [(".git", Sample.dot_git); ("README.md", File (Text "demo"));
              ("app", Dir [("run.py", File (Text "a"))])] in
  let w := Sample.world_of (Sample.cloned (Dir tes)) in
  exists w' rest,
    prune E (source_dir_of "app") w = (Return tt, w')
    /\ fs w' = FS.modify (cwd E ++ ["tmp_repo"]) (fun _ => Dir rest) (fs w)
    /\ FS.lookup (cwd E ++ ["tmp_repo"]) (fs w') = Some (Dir rest)
    /\ (forall x n, In (x, n) rest
                    <-> In (x, n) tes
                        /\ PurePath.parts (source_dir_of "app") = ["tmp_repo"; x])
    /\ List.length rest <= 1.
Proof.
  cbv zeta.
  apply (prune_keeps_only_the_source_directory
           (Sample.env_of Sample.today (Dir []))
           (source_dir_of "app")
           (Sample.world_of
              (Sample.cloned
                 (Dir [(".git", Sample.dot_git); ("README.md", File (Text "demo"));
                       ("app", Dir [("run.py", File (Text "a"))])])))
           [("tmp_repo",
             Dir [(".git", Sample.dot_git); ("README.md", File (Text "demo"));
                  ("app", Dir [("run.py", File (Text "a"))])])]
           [(".git", Sample.dot_git); ("README.md", File (Text "demo"));
            ("app", Dir [("run.py", File (Text "a"))])]).
  - reflexivity.
  - reflexivity.
  - split.
    + repeat constructor; simpl; intuition discriminate.
    + simpl; intuition discriminate.
Defined.

(** ** What is printed *)

Section OutputFacts.
Variable E : env.

Lemma log_line_wider lo hi lo' hi' s :
  lo' <= lo -> hi <= hi' -> log_line E lo hi s -> log_line E lo' hi' s.
Proof.
  intros Hlo Hhi (n & msg & Hn & Hs). exists n, msg. split; [lia | exact Hs].
Qed.

Lemma extends_refl w : extends E w w.
Proof.
  split; [lia|]. exists []. split; [symmetry; apply app_nil_r | constructor].
Qed.

Lemma extends_trans w1 w2 w3 : extends E w1 w2 -> extends E w2 w3 -> extends E w1 w3.
Proof.
  intros (H1 & l1 & Ho1 & Hl1) (H2 & l2 & Ho2 & Hl2). split; [lia|].
  exists (l1 ++ l2)%list. split.
  - rewrite Ho2, Ho1, app_assoc. reflexivity.
  - apply Forall_app. split.
    + eapply Forall_impl; [|exact Hl1]. intros s. apply log_line_wider; lia.
    + eapply Forall_impl; [|exact Hl2]. intros s. apply log_line_wider; lia.
Qed.

Lemma extends_logged message w : extends E w (logged E message w).
Proof.
  split; [cbn; lia|]. eexists. split; [reflexivity|].
  constructor; [|constructor]. exists (clock_reads w), message.
  split; [cbn; lia | reflexivity].
Qed.

Lemma extends_silent w w' :
  stdout w' = stdout w -> clock_reads w <= clock_reads w' -> extends E w w'.
Proof.
  intros Ho Hc. split; [exact Hc|]. exists []. rewrite Ho.
  split; [symmetry; apply app_nil_r | constructor].
Qed.

Lemma ol_ret {A : Type} (a : A) : only_logs E (ret a).
Proof. intros w o w' H. inversion H; subst. apply extends_refl. Qed.

Lemma ol_raise {A : Type} (e : exn) : only_logs E (raise e (A := A)).
Proof. intros w o w' H. inversion H; subst. apply extends_refl. Qed.

Lemma ol_bind {A B : Type} (m : M A) (k : A -> M B) :
  only_logs E m -> (forall a, only_logs E (k a)) -> only_logs E (bind m k).
Proof.
  intros Hm Hk w o w' H. apply bind_inv in H.
  destruct H as [(a & w1 & H1 & H2)|(e & H1 & H2)].
  - eapply extends_trans; [eapply Hm | eapply Hk]; eassumption.
  - eapply Hm; eassumption.
Qed.

Lemma ol_get_fs : only_logs E get_fs.
Proof. intros w o w' H. inversion H; subst. apply extends_refl. Qed.

Lemma ol_set_fs r : only_logs E (set_fs r).
Proof.
  intros w o w' H. inversion H; subst. apply extends_silent; cbn; [reflexivity | lia].
Qed.

Lemma ol_log message : only_logs E (log E message).
Proof.
  intros w o w' H. rewrite log_eq in H. inversion H; subst. apply extends_logged.
Qed.

Lemma ol_datetime_now : only_logs E (datetime_now E).
Proof.
  intros w o w' H. inversion H; subst. apply extends_silent; cbn; [reflexivity | lia].
Qed.

Lemma ol_for_each {A : Type} (l : list A) (body : A -> M unit) :
  (forall x, only_logs E (body x)) -> only_logs E (for_each l body).
Proof.
  intros Hb. induction l as [|x l IH]; simpl.
  - apply ol_ret.
  - apply ol_bind; auto.
Qed.

(** Goes through a computation built from binds, branches and the steps
    above; [prim] settles the calls it is told about. *)
Ltac ol_with prim :=
  repeat first
    [ prim
    | apply ol_ret | apply ol_get_fs | apply ol_set_fs | apply ol_log
    | apply ol_datetime_now | apply ol_raise
    | apply ol_for_each; intros
    | apply ol_bind; [|intros]
    | match goal with
      | |- only_logs _ (if ?b then _ else _) => destruct b
      | |- only_logs _ (match ?x with _ => _ end) => destruct x
      | |- only_logs _ (let (_, _) := ?x in _) => destruct x
      end ].

Lemma ol_path_exists p : only_logs E (path_exists E p).
Proof. unfold path_exists. ol_with fail. Qed.

Lemma ol_path_is_dir p : only_logs E (path_is_dir E p).
Proof. unfold path_is_dir. ol_with fail. Qed.

Lemma ol_iterdir p : only_logs E (iterdir E p).
Proof. unfold iterdir. ol_with fail. Qed.

Lemma ol_rmtree p : only_logs E (rmtree E p).
Proof. unfold rmtree. ol_with fail. Qed.

Lemma ol_unlink p : only_logs E (unlink E p).
Proof. unfold unlink. ol_with fail. Qed.

Lemma ol_write_file p c : only_logs E (write_file E p c).
Proof. unfold write_file. ol_with fail. Qed.

Ltac ol_prim :=
  first [ apply ol_path_exists | apply ol_path_is_dir | apply ol_iterdir
        | apply ol_rmtree | apply ol_unlink | apply ol_write_file ].

Lemma ol_make_archive b r d : only_logs E (make_archive E b r d).
Proof. unfold make_archive. ol_with ol_prim. Qed.

Lemma ol_run_cmd cmd dir : only_logs E (run_cmd E cmd dir).
Proof. unfold run_cmd. ol_with fail. Qed.

Lemma ol_reset : only_logs E (reset E).
Proof. unfold reset. ol_with ol_prim. Qed.

Lemma ol_fetch url : only_logs E (fetch E url).
Proof. unfold fetch. ol_with ltac:(apply ol_run_cmd). Qed.

Lemma ol_locate rel : only_logs E (locate E rel).
Proof. unfold locate. ol_with ol_prim. Qed.

Lemma ol_prune sd : only_logs E (prune E sd).
Proof. unfold prune, prune_item. ol_with ol_prim. Qed.

Lemma ol_build_manifest sd v : only_logs E (build_manifest E sd v).
Proof. unfold build_manifest. ol_with ol_prim. Qed.

Lemma ol_archive rel : only_logs E (archive E rel).
Proof.
  unfold archive, last_part.
  ol_with ltac:(first [apply ol_make_archive | ol_prim]).
Qed.

Lemma ol_teardown : only_logs E (teardown E).
Proof. unfold teardown. ol_with ol_prim. Qed.

Lemma ol_main url rel v : only_logs E (main E url rel v).
Proof.
  unfold main.
  apply ol_bind; [apply ol_reset | intros _].
  apply ol_bind; [apply ol_fetch | intros _].
  apply ol_bind; [apply ol_locate | intros sd].
  apply ol_bind; [apply ol_prune | intros _].
  apply ol_bind; [apply ol_build_manifest | intros _].
  apply ol_bind; [apply ol_archive | intros _].
  apply ol_teardown.
Qed.

(** X5: whatever a run with three arguments does and however it ends,
    normally, with the build error or with any other exception, it only adds
    to the standard output; each added line is a line of the log, stamped
    with a clock reading made during the run.  This holds of [main] and of
    the script around it, whose handler adds one more such line. *)
Theorem run_only_appends_log_lines prog url rel v w :
  extends E w (snd (main E url rel v w))
  /\ extends E w (snd (script E [prog; url; rel; v] w)).
Proof.
  assert (Hmain : extends E w (snd (main E url rel v w))).
  { destruct (main E url rel v w) as [o w'] eqn:H. exact (ol_main _ _ _ _ _ _ H). }
  split; [exact Hmain|].
  unfold script. cbn [length Nat.eqb negb nth].
  destruct (main E url rel v w) as [o w'] eqn:H. cbn [snd] in Hmain.
  destruct o as [[]|e]; [exact Hmain|].
  destruct e; try exact Hmain.
  rewrite log_eq. cbn [snd]. eapply extends_trans; [exact Hmain | apply extends_logged].
Qed.


End OutputFacts.

(** ** Whole runs, in general *)

Section WholeRuns.
Variable E : env.

(** What the top-level handler makes of an exception other than the build
    error: exit status 1, nothing more printed. *)
Lemma script_uncaught prog url rel v w e w' :
  main E url rel v w = (Raise e, w') ->
  (forall msg, e <> BuildScriptError msg) ->
  script E [prog; url; rel; v] w = (1, w').
Proof.
  intros Hmain Hne. unfold script. cbn [length Nat.eqb negb nth].
  rewrite Hmain. destruct e; try reflexivity.
  exfalso. eapply Hne. reflexivity.
Qed.


Lemma locate_found rel w loc es :
  FSOps.locate (fs w) (cwd E) (source_dir_of rel) = inr (loc, Dir es) ->
  locate E rel w
  = (Return (source_dir_of rel),
     logged E ("Исходный код найден по пути: " ++ PurePath.to_string (source_dir_of rel)) w).
Proof.
  intros H. rewrite locate_eq. unfold FSOps.exists_, FSOps.is_dir. rewrite H.
  reflexivity.
Qed.

Lemma source_dir_parts rel ps :
  PurePath.parse rel = PurePath.mk "" ps ->
  source_dir_of rel = PurePath.mk "" ("tmp_repo" :: ps).
Proof. intros H. unfold source_dir_of. rewrite H. reflexivity. Qed.

(** X2: a relative path of two or more segments.  The source directory is
    found, the pruning loop deletes every entry of the clone (none equals the
    source directory), and listing the source directory then raises
    [FileNotFoundError], which the handler does not catch: exit status 1, the
    temporary directory left behind, empty. *)
Theorem nested_path_ends_in_file_not_found
    prog url rel v w w2 ces tes a b rest ses :
  (reset E ;; fetch E url)%monad w = (Return tt, w2) ->
  FS.lookup (cwd E) (fs w2) = Some (Dir ces) ->
  FS.assoc "tmp_repo" ces = Some (Dir tes) ->
  wf_listing tes ->
  PurePath.parse rel = PurePath.mk "" (a :: b :: rest) ->
  ~ In ".." (a :: b :: rest) ->
  FS.lookup (cwd E ++ "tmp_repo" :: a :: b :: rest) (fs w2) = Some (Dir ses) ->
  exists w',
    main E url rel v w = (Raise FileNotFoundError, w')
    /\ script E [prog; url; rel; v] w = (1, w')
    /\ fs w' = FS.modify (cwd E ++ ["tmp_repo"]) (fun _ => Dir []) (fs w2)
    /\ FS.lookup (cwd E ++ ["tmp_repo"]) (fs w') = Some (Dir []).
Proof.
  intros Hclone Hcwd Htmp Hwf Hrel Hdots Hsrc.
  pose proof (source_dir_parts rel _ Hrel) as Hsd.
  assert (Hloc : FSOps.locate (fs w2) (cwd E) (source_dir_of rel)
                 = inr ((cwd E ++ "tmp_repo" :: a :: b :: rest)%list, Dir ses)).
  { rewrite Hsd. apply locate_plain; [|exact Hsrc].
    intros [Hx|Hx]; [discriminate Hx | exact (Hdots Hx)]. }
  pose proof (locate_found rel w2 _ _ Hloc) as Hlocate.
  set (w3 := logged E _ w2) in Hlocate.
  destruct (prune_leaves_what_equals_keep E (source_dir_of rel) w3 ces tes)
    as (w4 & Hprune & Hfs4 & Hlk4); [exact Hcwd | exact Htmp | exact Hwf |].
  rewrite kept_nobody in Hfs4, Hlk4
    by (intros x; rewrite Hsd; cbn [PurePath.parts PurePath.root String.eqb];
        intros Hp; discriminate Hp).
  assert (Hgone : FSOps.locate (fs w4) (cwd E) (source_dir_of rel) = inl ENOENT).
  { rewrite Hsd. apply locate_in_empty_tmp; [exact Hlk4|].
    intros ->. apply Hdots. left. reflexivity. }
  pose proof (build_manifest_eq E (source_dir_of rel) v w4) as Hman.
  rewrite Hgone in Hman. cbn [os_error] in Hman.
  set (w5 := logged E _ w4) in Hman.
  assert (Hmain : main E url rel v w = (Raise FileNotFoundError, w5)).
  { rewrite main_steps.
    rewrite (bind_eq _ _ _ _ _ Hclone).
    rewrite (bind_eq _ _ _ _ _ Hlocate).
    rewrite (bind_eq _ _ _ _ _ Hprune).
    apply bind_raise. exact Hman. }
  exists w5. split; [exact Hmain|]. split.
  - apply (script_uncaught _ _ _ _ _ _ _ Hmain). intros msg H. discriminate H.
  - subst w5. rewrite fs_logged. split; [exact Hfs4 | exact Hlk4].
Qed.



(** X6: a clone command that ends with a status other than 0.  The script
    prints the two lines that announce the command, the status, the error
    output of the command and the report of the handler, then ends with
    status 0; no later step runs, and the file system is left as the command
    left it. *)
Theorem failed_clone_is_reported prog url rel v w w1 rc out err r' :
  reset E w = (Return tt, w1) ->
  shell E ("git clone " ++ url ++ " " ++ PurePath.to_string tmp_dir) None (fs w1)
  = (rc, out, err, r') ->
  rc <> 0%Z ->
  let cmd := "git clone " ++ url ++ " tmp_repo" in
  let n := clock_reads w1 in
  exists w',
    script E [prog; url; rel; v] w = (0, w')
    /\ fs w' = r'
    /\ stdout w'
       = (stdout w1
          ++ [stamped E n ("Начинаем клонирование репозитория " ++ url ++ " в tmp_repo...");
              stamped E (1 + n) ("Запуск команды: " ++ cmd ++ " (директория: текущая)");
              stamped E (2 + n) ("Команда завершилась с ошибкой! Код: " ++ PyStr.of_Z rc);
              stamped E (3 + n) ("stderr: " ++ str_strip E err);
              stamped E (4 + n) ("Ошибка сборки: Ошибка выполнения команды: " ++ cmd)])%list.
Proof.
  intros Hreset Hshell Hrc. cbv zeta.
  assert (Hfetch : exists w2,
            fetch E url w1
            = (Raise (BuildScriptError ("Ошибка выполнения команды: git clone " ++ url ++ " tmp_repo")), w2)
            /\ fs w2 = r'
            /\ clock_reads w2 = 4 + clock_reads w1
            /\ stdout w2 = (stdout w1
          ++ [stamped E (clock_reads w1) ("Начинаем клонирование репозитория " ++ url ++ " в tmp_repo...");
              stamped E (1 + clock_reads w1) ("Запуск команды: " ++ ("git clone " ++ url ++ " tmp_repo") ++ " (директория: текущая)");
              stamped E (2 + clock_reads w1) ("Команда завершилась с ошибкой! Код: " ++ PyStr.of_Z rc);
              stamped E (3 + clock_reads w1) ("stderr: " ++ str_strip E err)])%list).
  { eexists. split.
    - unfold fetch, run_cmd. autorewrite with run. cbn [fs]. rewrite Hshell.
      cbn beta iota. autorewrite with run.
      apply Z.eqb_neq in Hrc. rewrite Hrc. cbn [negb]. autorewrite with run.
      reflexivity.
    - cbn [fs stdout clock_reads logged].
      split; [reflexivity|]. split; [reflexivity|].
      rewrite <- !app_assoc. reflexivity. }
  destruct Hfetch as (w2 & Hfetch & Hfs2 & Hclk2 & Hout2).
  assert (Hmain : main E url rel v w
                  = (Raise (BuildScriptError ("Ошибка выполнения команды: git clone " ++ url ++ " tmp_repo")), w2)).
  { rewrite main_steps. apply bind_raise. rewrite (bind_eq _ _ _ _ _ Hreset). exact Hfetch. }
  eexists. split.
  - unfold script. cbn [length Nat.eqb negb nth]. rewrite Hmain, log_eq. reflexivity.
  - cbn [snd]. rewrite fs_logged. split; [exact Hfs2|].
    cbn [logged stdout]. rewrite Hout2, Hclk2, <- !app_assoc. reflexivity.
Qed.

(** X7: a call of [main] that returns normally has removed the temporary
    directory, whatever the arguments and the state it started from; and the
    relative path then has a last segment. *)
Theorem normal_return_leaves_no_tmp url rel v w w' :
  main E url rel v w = (Return tt, w') ->
  FSOps.exists_ (fs w') (cwd E) tmp_dir = false
  /\ PurePath.parts (PurePath.parse rel) <> [].
Proof.
  intros H. rewrite main_steps in H.
  apply bind_inv in H. destruct H as [(a & w2 & _ & H)|(e & _ & He)]; [|discriminate He].
  apply bind_inv in H. destruct H as [(sd & w3 & _ & H)|(e & _ & He)]; [|discriminate He].
  apply bind_inv in H. destruct H as [(a4 & w4 & _ & H)|(e & _ & He)]; [|discriminate He].
  apply bind_inv in H. destruct H as [(a5 & w5 & _ & H)|(e & _ & He)]; [|discriminate He].
  apply bind_inv in H. destruct H as [(a6 & w6 & Harch & H)|(e & _ & He)]; [|discriminate He].
  split.
  - unfold teardown, rmtree in H. autorewrite with run in H. cbn [fs] in H.
    destruct (tmp_dir_cases (fs w6) (cwd E)) as [[Hex _]|[[es Hloc]|[c Hloc]]].
    + unfold FSOps.exists_ in Hex.
      destruct (FSOps.locate (fs w6) (cwd E) tmp_dir) as [e|p]; [|discriminate Hex].
      autorewrite with run in H. discriminate H.
    + rewrite Hloc in H. autorewrite with run in H. inversion H; subst w'.
      rewrite fs_logged. cbn [fs]. apply tmp_dir_gone.
    + rewrite Hloc in H. autorewrite with run in H. discriminate H.
  - unfold archive, last_part in Harch.
    destruct (PurePath.parts (PurePath.parse rel)); [discriminate Harch | discriminate].
Qed.

End WholeRuns.

(** A run on the sample repository whose source directory is [src/app]. *)
Lemma nested_path_ends_in_file_not_found_witness :
  let E := Sample.env_of Sample.today (Sample.nested_repo (Text "a") (Text "b")) in
  let w := Sample.world_of Sample.root0 in
  let w2 := snd ((reset E ;; fetch E Sample.url)%monad w) in
  exists w',
    main E Sample.url "src/app" "1.2.3" w = (Raise FileNotFoundError, w')
    /\ script E ["Task2.py"; Sample.url; "src/app"; "1.2.3"] w = (1, w')
    /\ fs w' = FS.modify (cwd E ++ ["tmp_repo"]) (fun _ => Dir []) (fs w2)
    /\ FS.lookup (cwd E ++ ["tmp_repo"]) (fs w') = Some (Dir []).
Proof.
  cbv zeta.
  apply (nested_path_ends_in_file_not_found
           (Sample.env_of Sample.today (Sample.nested_repo (Text "a") (Text "b")))
           "Task2.py" Sample.url "src/app" "1.2.3"
           (Sample.world_of Sample.root0)
           (snd ((reset (Sample.env_of Sample.today (Sample.nested_repo (Text "a") (Text "b")))
                  ;; fetch (Sample.env_of Sample.today (Sample.nested_repo (Text "a") (Text "b")))
                       Sample.url)%monad
                   (Sample.world_of Sample.root0)))
           [("tmp_repo", Sample.nested_repo (Text "a") (Text "b"))]
           [(".git", Sample.dot_git); ("README.md", File (Text "demo"));
            ("src", Dir [("app", Dir [("run.py", File (Text "a"));
                                      ("notes.md", File (Text "b"))])])]
           "src" "app" []
           [("run.py", File (Text "a")); ("notes.md", File (Text "b"))]).
  - vm_compute; reflexivity.
  - vm_compute; reflexivity.
  - reflexivity.
  - split.
    + repeat constructor; simpl; intuition discriminate.
    + simpl; intuition discriminate.
  - reflexivity.
  - simpl; intuition discriminate.
  - vm_compute; reflexivity.
Defined.



(** A clone of a repository the sample shell does not know. *)
Lemma failed_clone_is_reported_witness :
  let E := Sample.env_of Sample.today (Dir []) in
  let w := Sample.world_of Sample.root0 in
  let w1 := snd (reset E w) in
  let cmd := "git clone https://example/other.git tmp_repo" in
  let n := clock_reads w1 in
  exists w',
    script E ["Task2.py"; "https://example/other.git"; "app"; "1.2.3"] w = (0, w')
    /\ fs w' = Sample.root0
    /\ stdout w'
       = (stdout w1
          ++ [stamped E n ("Начинаем клонирование репозитория " ++ "https://example/other.git"
                           ++ " в tmp_repo...");
              stamped E (1 + n) ("Запуск команды: " ++ cmd ++ " (директория: текущая)");
              stamped E (2 + n) ("Команда завершилась с ошибкой! Код: " ++ PyStr.of_Z 128);
              stamped E (3 + n) ("stderr: " ++ str_strip E "fatal: repository not found");
              stamped E (4 + n) ("Ошибка сборки: Ошибка выполнения команды: " ++ cmd)])%list.
Proof.
  cbv zeta.
  apply (failed_clone_is_reported
           (Sample.env_of Sample.today (Dir []))
           "Task2.py" "https://example/other.git" "app" "1.2.3"
           (Sample.world_of Sample.root0)
           (snd (reset (Sample.env_of Sample.today (Dir [])) (Sample.world_of Sample.root0)))
           128%Z "" "fatal: repository not found" Sample.root0).
  - vm_compute; reflexivity.
  - vm_compute; reflexivity.
  - discriminate.
Defined.

(** The run on the sample repository with the path [app] returns. *)
Lemma normal_return_leaves_no_tmp_witness :
  let E := Sample.env_of Sample.today (Sample.flat_repo (Text "a") (Text "b")) in
  let w := Sample.world_of Sample.root0 in
  FSOps.exists_ (fs (snd (main E Sample.url "app" "1.2.3" w))) (cwd E) tmp_dir = false
  /\ PurePath.parts (PurePath.parse "app") <> [].
Proof.
  cbv zeta.
  apply (normal_return_leaves_no_tmp
           (Sample.env_of Sample.today (Sample.flat_repo (Text "a") (Text "b")))
           Sample.url "app" "1.2.3" (Sample.world_of Sample.root0)).
  vm_compute; reflexivity.
Defined.

(** ** Which names the manifest lists (lines 71-72) *)

Section SuffixFacts.

Lemma take_drop i : forall s, s = take i s ++ PyStr.drop i s.
Proof.
  induction i as [|i IH]; intros s; [reflexivity|].
  destruct s as [|c r]; [reflexivity|]. cbn [take PyStr.drop append]. f_equal. apply IH.
Qed.

Lemma drop_app stem ext : PyStr.drop (String.length stem) (stem ++ ext) = ext.
Proof. induction stem as [|c r IH]; [reflexivity | exact IH]. Qed.

Lemma rfind_before_ext stem e :
  PyStr.rfind "." e = None ->
  PyStr.rfind "." (stem ++ String "." e) = Some (String.length stem).
Proof.
  intros He. induction stem as [|c r IH].
  - cbn [append PyStr.rfind String.length]. rewrite He. reflexivity.
  - cbn [append PyStr.rfind String.length]. rewrite IH. reflexivity.
Qed.

Lemma suffix_of_ext stem e :
  stem <> "" -> e <> "" -> PyStr.rfind "." e = None ->
  PurePath.suffix_of (stem ++ String "." e) = String "." e.
Proof.
  intros Hstem He Hdot. unfold PurePath.suffix_of.
  rewrite rfind_before_ext by exact Hdot. rewrite length_app.
  assert (H0 : 0 < String.length stem) by (destruct stem; [congruence | cbn; lia]).
  assert (H1 : 0 < String.length e) by (destruct e; [congruence | cbn; lia]).
  cbn [String.length].
  replace (Nat.ltb 0 (String.length stem)) with true by (symmetry; apply Nat.ltb_lt; lia).
  replace (Nat.ltb (String.length stem) (String.length stem + S (String.length e) - 1))
    with true by (symmetry; apply Nat.ltb_lt; lia).
  apply drop_app.
Qed.

Lemma suffix_of_split nm :
  PurePath.suffix_of nm <> "" ->
  exists stem, stem <> "" /\ nm = stem ++ PurePath.suffix_of nm.
Proof.
  unfold PurePath.suffix_of. destruct (PyStr.rfind "." nm) as [i|]; [|congruence].
  destruct (Nat.ltb 0 i && Nat.ltb i (String.length nm - 1)) eqn:Hi; [|congruence].
  intros _. apply andb_prop in Hi. destruct Hi as [H0 H1].
  apply Nat.ltb_lt in H0. apply Nat.ltb_lt in H1.
  exists (take i nm). split; [|apply take_drop].
  destruct i as [|i]; [lia|]. destruct nm as [|c r]; [cbn in H1; lia|].
  cbn [take]. discriminate.
Qed.

(** The test of line 71 on a file name: the name is a non-empty stem
    followed by one of the three extensions, in lower case. *)
Lemma wanted_name_iff nm :
  wanted_name nm = true
  <-> exists stem ext, nm = stem ++ ext /\ stem <> "" /\ In ext [".py"; ".js"; ".sh"].
Proof.
  split.
  - intros H. apply wanted_name_in in H.
    destruct (suffix_of_split nm) as (stem & Hstem & Hnm).
    { intros Hempty. rewrite Hempty in H. cbn in H. intuition discriminate. }
    exists stem, (PurePath.suffix_of nm). auto.
  - intros (stem & ext & -> & Hstem & Hext). unfold wanted_name.
    cbn [In] in Hext. destruct Hext as [<-|[<-|[<-|[]]]];
      rewrite suffix_of_ext by (try exact Hstem; try discriminate; reflexivity);
      reflexivity.
Qed.

Lemma in_listed (es : list (string * node)) f :
  In f (listed es)
  <-> exists c, In (f, File c) es /\ wanted_name f = true.
Proof.
  unfold listed. rewrite in_map_iff. split.
  - intros ([g n] & Hg & Hin). cbn [fst] in Hg. subst g.
    apply filter_In in Hin. destruct Hin as [Hin Hok]. cbn [fst snd] in Hok.
    apply andb_prop in Hok. destruct Hok as [Hreg Hw].
    destruct n as [c|]; [|discriminate Hreg]. exists c. auto.
  - intros (c & Hin & Hw). exists (f, File c). split; [reflexivity|].
    apply filter_In. split; [exact Hin|]. cbn [fst snd is_regular]. rewrite Hw. reflexivity.
Qed.

Lemma nodup_listed (es : list (string * node)) : NoDup (map fst es) -> NoDup (listed es).
Proof.
  unfold listed. induction es as [|[x n] r IH]; intros Hnd; [constructor|].
  cbn [map fst] in Hnd. inversion Hnd as [|? ? Hx Hr]; subst.
  cbn [filter fst snd].
  destruct (is_regular n && wanted_name x); [|exact (IH Hr)].
  cbn [map fst]. constructor; [|exact (IH Hr)].
  intros Hin. apply Hx. apply in_map_iff in Hin. destruct Hin as (e & He & Hin).
  apply filter_In in Hin. apply in_map_iff. exists e. tauto.
Qed.

End SuffixFacts.

Section ScanTheorem.
Variable E : env.

(** X8: the list of files the manifest step computes for a source directory
    (lines 71-72).  A name is listed exactly when it is the name of a regular
    file of the directory itself, not of a sub-directory of it, and is made of
    a non-empty stem followed by [.py], [.js] or [.sh] in lower case; no name
    is listed twice. *)
Theorem scan_lists_plain_files_by_extension r sd loc es :
  FSOps.locate r (cwd E) sd = inr (loc, Dir es) ->
  wf_listing es ->
  let files := scan E r (map (PurePath.child sd) (map fst es)) in
  NoDup files
  /\ forall f,
       In f files
       <-> (exists c, FS.lookup (loc ++ [f]) r = Some (File c))
           /\ exists stem ext, f = stem ++ ext /\ stem <> ""
                               /\ In ext [".py"; ".js"; ".sh"].
Proof.
  intros Hloc Hwf. cbv zeta. rewrite (scan_listed E r sd loc es Hloc Hwf).
  split; [apply nodup_listed; exact (proj1 Hwf)|].
  assert (Hlk : forall f, FS.lookup (loc ++ [f]) r = FS.assoc f es).
  { intros f. rewrite lookup_app. apply locate_lookup in Hloc.
    rewrite (proj2 Hloc). cbn [FS.lookup]. destruct (FS.assoc f es); reflexivity. }
  intros f. rewrite in_listed, <- wanted_name_iff. split.
  - intros (c & Hin & Hw). split; [|exact Hw]. exists c. rewrite Hlk.
    apply assoc_in_nodup; [exact (proj1 Hwf) | exact Hin].
  - intros ((c & Hc) & Hw). exists c. split; [|exact Hw].
    rewrite Hlk in Hc. apply assoc_in. exact Hc.
Qed.

End ScanTheorem.

(** The list computed for a directory of two files and a sub-directory. *)
Lemma scan_lists_plain_files_by_extension_witness :
  let E := Sample.env_of Sample.today (Dir []) in
  let es := [("run.py", File (Text "a")); ("notes.md", File (Text "b"));
             ("lib.js", Dir [("x.js", File (Text "c"))])] in
  let r := Sample.cloned (Dir [("app", Dir es)]) in
  let sd := source_dir_of "app" in
  let loc := (Sample.home ++ ["tmp_repo"; "app"])%list in
  let files := scan E r (map (PurePath.child sd) (map fst es)) in
  NoDup files
  /\ forall f,
       In f files
       <-> (exists c, FS.lookup (loc ++ [f]) r = Some (File c))
           /\ exists stem ext, f = stem ++ ext /\ stem <> ""
                               /\ In ext [".py"; ".js"; ".sh"].
Proof.
  cbv zeta.
  apply (scan_lists_plain_files_by_extension
           (Sample.env_of Sample.today (Dir []))
           (Sample.cloned
              (Dir [("app", Dir [("run.py", File (Text "a")); ("notes.md", File (Text "b"));
                                 ("lib.js", Dir [("x.js", File (Text "c"))])])]))
           (source_dir_of "app")
           (Sample.home ++ ["tmp_repo"; "app"])%list
           [("run.py", File (Text "a")); ("notes.md", File (Text "b"));
            ("lib.js", Dir [("x.js", File (Text "c"))])]).
  - reflexivity.
  - split.
    + repeat constructor; simpl; intuition discriminate.
    + simpl; intuition discriminate.
Defined.

(** ** The manifest can be read back (lines 75-85) *)

(** X9: the text written to [version.json] determines the version and the
    list of files: two manifests with the same text were made from the same
    version string and the same file names, whatever characters these hold. *)
Theorem manifest_determines_version_and_files v1 f1 v2 f2 :
  Json.dumps (version_data v1 f1) = Json.dumps (version_data v2 f2) ->
  v1 = v2 /\ f1 = f2.
Proof.
  intros H. apply manifest_text_inj. unfold manifest_text.
  change (Text (Json.dumps (version_data v1 f1)) = Text (Json.dumps (version_data v2 f2))).
  rewrite H. reflexivity.
Qed.

(** Two manifests made from one version and one list. *)
Lemma manifest_determines_version_and_files_witness :
  "1.2.3" = "1.2.3" /\ ["run.py"; "a b.sh"] = ["run.py"; "a b.sh"].
Proof.
  apply (manifest_determines_version_and_files
           "1.2.3" ["run.py"; "a b.sh"] "1.2.3" ["run.py"; "a b.sh"]).
  reflexivity.
Defined.

(** ** The time stamp of a logged line (lines 14-16) *)

Section StampFacts.




End StampFacts.

Section LogTheorem.
Variable E : env.


End LogTheorem.


(** ** Runs stopped by what is in the way *)

Section StoppedRuns.
Variable E : env.

(** X11: a regular file named [tmp_repo] in the working directory.  The
    reset announces the removal, [shutil.rmtree] refuses the file, and the
    run ends there with an uncaught [NotADirectoryError]: exit status 1, one
    line printed, no command run, the file system untouched. *)
Theorem file_named_tmp_repo_stops_the_run prog url rel v w ces c :
  FS.lookup (cwd E) (fs w) = Some (Dir ces) ->
  FS.assoc "tmp_repo" ces = Some (File c) ->
  let w' := logged E "Временная папка tmp_repo существует. Начинаем удаление..." w in
  main E url rel v w = (Raise NotADirectoryError, w')
  /\ script E [prog; url; rel; v] w = (1, w')
  /\ fs w' = fs w.
Proof.
  intros Hcwd Htmp. cbv zeta.
  assert (Hloc : FSOps.locate (fs w) (cwd E) tmp_dir
                 = inr ((cwd E ++ ["tmp_repo"])%list, File c)).
  { rewrite locate_tmp_dir, Hcwd, Htmp. reflexivity. }
  assert (Hreset : reset E w
                   = (Raise NotADirectoryError,
                      logged E "Временная папка tmp_repo существует. Начинаем удаление..." w)).
  { unfold reset, path_exists, FSOps.exists_. autorewrite with run. rewrite Hloc.
    autorewrite with run. unfold rmtree. autorewrite with run. rewrite Hloc.
    autorewrite with run. reflexivity. }
  assert (Hmain : main E url rel v w
                  = (Raise NotADirectoryError,
                     logged E "Временная папка tmp_repo существует. Начинаем удаление..." w)).
  { unfold main. apply bind_raise. exact Hreset. }
  split; [exact Hmain|]. split; [|apply fs_logged].
  apply (script_uncaught E _ _ _ _ _ _ _ Hmain). intros msg H. discriminate H.
Qed.

(** X12: a sub-directory named [version.json] in the source directory, the
    relative path having one segment.  The clone is pruned down to the
    source directory, the list of files is computed and logged, and opening
    [version.json] for writing then raises [IsADirectoryError], which nothing
    catches: exit status 1, no manifest, no archive, and the temporary
    directory left behind with the source directory as it was cloned. *)
Theorem directory_named_version_json_stops_the_run
    prog url rel v w w2 ces tes k aes ves :
  (reset E ;; fetch E url)%monad w = (Return tt, w2) ->
  FS.lookup (cwd E) (fs w2) = Some (Dir ces) ->
  FS.assoc "tmp_repo" ces = Some (Dir tes) ->
  wf_listing tes ->
  PurePath.parse rel = PurePath.mk "" [k] ->
  FS.assoc k tes = Some (Dir aes) ->
  FS.assoc "version.json" aes = Some (Dir ves) ->
  exists w',
    main E url rel v w = (Raise IsADirectoryError, w')
    /\ script E [prog; url; rel; v] w = (1, w')
    /\ fs w' = FS.modify (cwd E ++ ["tmp_repo"]) (fun _ => Dir [(k, Dir aes)]) (fs w2).
Proof.
  intros Hclone Hcwd Htmp Hwf Hrel Hk Hvj.
  pose proof (source_dir_parts rel _ Hrel) as Hsd.
  assert (Hkdots : k <> "..").
  { intros ->. apply (proj2 Hwf). eapply in_map_iff.
    exists ("..", Dir aes). split; [reflexivity|]. eapply assoc_in. exact Hk. }
  assert (Hlk2 : FS.lookup (cwd E ++ ["tmp_repo"; k]) (fs w2) = Some (Dir aes)).
  { rewrite lookup_app, Hcwd. cbn [FS.lookup]. rewrite Htmp, Hk. reflexivity. }
  assert (Hplain : ~ In ".." ["tmp_repo"; k]).
  { intros [Hx|[Hx|[]]]; [discriminate Hx | exact (Hkdots Hx)]. }
  assert (Hloc : FSOps.locate (fs w2) (cwd E) (source_dir_of rel)
                 = inr ((cwd E ++ ["tmp_repo"; k])%list, Dir aes)).
  { rewrite Hsd. apply locate_plain; [exact Hplain | exact Hlk2]. }
  pose proof (locate_found E rel w2 _ _ Hloc) as Hlocate.
  set (w3 := logged E _ w2) in Hlocate.
  destruct (prune_keeps_child E rel k w3 ces tes (Dir aes))
    as (w4 & Hprune & Hfs4); [exact Hrel | exact Hcwd | exact Htmp | exact Hwf | exact Hk |].
  subst w3. rewrite fs_logged in Hfs4.
  assert (Htmp2 : FS.lookup (cwd E ++ ["tmp_repo"]) (fs w2) = Some (Dir tes)).
  { rewrite lookup_app, Hcwd. cbn [FS.lookup]. rewrite Htmp. reflexivity. }
  assert (Hlk4 : FS.lookup (cwd E ++ ["tmp_repo"; k]) (fs w4) = Some (Dir aes)).
  { change (cwd E ++ ["tmp_repo"; k])%list with (cwd E ++ ["tmp_repo"] ++ [k])%list.
    rewrite app_assoc, lookup_app, Hfs4, lookup_modify, Htmp2.
    cbn [option_map FS.lookup FS.assoc]. rewrite String.eqb_refl. reflexivity. }
  assert (Hloc4 : FSOps.locate (fs w4) (cwd E) (source_dir_of rel)
                  = inr ((cwd E ++ ["tmp_repo"; k])%list, Dir aes)).
  { rewrite Hsd. apply locate_plain; [exact Hplain | exact Hlk4]. }
  pose proof (build_manifest_eq E (source_dir_of rel) v w4) as Hman.
  rewrite Hloc4 in Hman. cbv zeta in Hman. rewrite Hvj in Hman.
  match type of Hman with _ = (_, ?x) => set (w5 := x) in Hman end.
  assert (Hmain : main E url rel v w = (Raise IsADirectoryError, w5)).
  { rewrite main_steps.
    rewrite (bind_eq _ _ _ _ _ Hclone).
    rewrite (bind_eq _ _ _ _ _ Hlocate).
    rewrite (bind_eq _ _ _ _ _ Hprune).
    apply bind_raise. exact Hman. }
  exists w5. split; [exact Hmain|]. split.
  - apply (script_uncaught E _ _ _ _ _ _ _ Hmain). intros msg H. discriminate H.
  - subst w5. rewrite !fs_logged. exact Hfs4.
Qed.

End StoppedRuns.

(** A working directory that holds a file [tmp_repo]. *)
Lemma file_named_tmp_repo_stops_the_run_witness :
  let E := Sample.env_of Sample.today (Dir []) in
  let w := Sample.world_of (Sample.cloned (File (Text "x"))) in
  let w' := logged E "Временная папка tmp_repo существует. Начинаем удаление..." w in
  main E Sample.url "app" "1.2.3" w = (Raise NotADirectoryError, w')
  /\ script E ["Task2.py"; Sample.url; "app"; "1.2.3"] w = (1, w')
  /\ fs w' = fs w.
Proof.
  cbv zeta.
  apply (file_named_tmp_repo_stops_the_run
           (Sample.env_of Sample.today (Dir []))
           "Task2.py" Sample.url "app" "1.2.3"
           (Sample.world_of (Sample.cloned (File (Text "x"))))
           [("tmp_repo", File (Text "x"))] (Text "x")).
  - reflexivity.
  - reflexivity.
Defined.

(** A clone whose [app] holds a directory [version.json]. *)
Lemma directory_named_version_json_stops_the_run_witness :
  let aes := [("run.py", File (Text "a")); ("version.json", Dir [])] in
  let tes := [("README.md", File (Text "demo")); ("app", Dir aes)] in
  let E := Sample.env_of Sample.today (Dir tes) in
  let w := Sample.world_of Sample.root0 in
  let w2 := snd ((reset E ;; fetch E Sample.url)%monad w) in
  exists w',
    main E Sample.url "app" "1.2.3" w = (Raise IsADirectoryError, w')
    /\ script E ["Task2.py"; Sample.url; "app"; "1.2.3"] w = (1, w')
    /\ fs w' = FS.modify (cwd E ++ ["tmp_repo"]) (fun _ => Dir [("app", Dir aes)]) (fs w2).
Proof.
  cbv zeta.
  apply (directory_named_version_json_stops_the_run
           (Sample.env_of Sample.today
              (Dir [("README.md", File (Text "demo"));
                    ("app", Dir [("run.py", File (Text "a")); ("version.json", Dir [])])]))
           "Task2.py" Sample.url "app" "1.2.3"
           (Sample.world_of Sample.root0)
           (snd ((reset (Sample.env_of Sample.today
                           (Dir [("README.md", File (Text "demo"));
                                 ("app", Dir [("run.py", File (Text "a"));
                                              ("version.json", Dir [])])]))
                  ;; fetch (Sample.env_of Sample.today
                              (Dir [("README.md", File (Text "demo"));
                                    ("app", Dir [("run.py", File (Text "a"));
                                                 ("version.json", Dir [])])]))
                       Sample.url)%monad
                   (Sample.world_of Sample.root0)))
           [("tmp_repo",
             Dir [("README.md", File (Text "demo"));
                  ("app", Dir [("run.py", File (Text "a")); ("version.json", Dir [])])])]
           [("README.md", File (Text "demo"));
            ("app", Dir [("run.py", File (Text "a")); ("version.json", Dir [])])]
           "app"
           [("run.py", File (Text "a")); ("version.json", Dir [])]
           []).
  - vm_compute; reflexivity.
  - vm_compute; reflexivity.
  - reflexivity.
  - split.
    + repeat constructor; simpl; intuition discriminate.
    + simpl; intuition discriminate.
  - reflexivity.
  - reflexivity.
  - reflexivity.
Defined.
